(** * chatbot-api: the response-decision pipeline of [app/services/ai_service.py]

    A shallow embedding of [AIService] (topic gate, fact extractor, context
    builder, prompt composer, generator boundary, response cleaner and the
    bounded conversation memory) together with the properties stated for it.

    Modelling conventions.
    - A Python [str] is a list of Unicode code points, each a number;
      [isspace], [strip], [split], [find], slices and [replace] follow
      CPython on every text.  A text written between quotes is turned into
      its code points by [py].
    - [str.lower] rests on the case tables of Unicode, which are no part of
      the repository: the function [lowercase] given to the service stands
      for them, and every general statement holds whatever it is.
      [lowercase_sample] is used where a text is evaluated.
    - A Python [int] is a [Z]; [find] returns [-1] when nothing is found and
      slices clamp and wrap their bounds as Python does.
    - [conversation_memory], a [dict] from conversation id to a list of
      messages, is a [gmap] from texts to lists of [ChatMessage].
    - What [chat] takes from its surroundings in one call (the identifier drawn
      from [uuid.uuid4] and the behaviour of the text-generation pipeline) is
      an explicit [Env] argument.  Exceptions and the mutation of [self] are
      threaded through a small state-and-exception monad.
    - [processing_time], a wall-clock float, is left out of [ChatResult]. *)

From Stdlib Require Import ZArith NArith Lia Bool Ascii.
From stdpp Require Import gmap strings list.

Local Open Scope Z_scope.

(** ** Python strings *)

(** A text: its code points in order. *)
Abbreviation str := (list N).

(** The text of a literal made of ASCII characters. *)
Definition py (literal : string) : str :=
  map N_of_ascii (String.list_ascii_of_string literal).

Module PyStr.

(** [str.isspace] for one code point: U+0009 to U+000D, U+001C to U+0020,
    U+0085, U+00A0, U+1680, U+2000 to U+200A, U+2028, U+2029, U+202F, U+205F
    and U+3000. *)
Definition isspace (c : N) : bool :=
  (((9 <=? c) && (c <=? 13)) || ((28 <=? c) && (c <=? 32))
   || (c =? 133) || (c =? 160) || (c =? 5760)
   || ((8192 <=? c) && (c <=? 8202))
   || (c =? 8232) || (c =? 8233) || (c =? 8239) || (c =? 8287)
   || (c =? 12288))%N.

(** [s.lower()]: the empty text stays empty, any other text is mapped as the
    case tables say. *)
Definition lower (lowercase : str -> str) (s : str) : str :=
  match s with
  | [] => []
  | _ => lowercase s
  end.

(** [len(s)] *)
Definition len (s : str) : Z := Z.of_nat (length s).

(** Truth value of a text: [if s:] *)
Definition truthy (s : str) : bool :=
  match s with [] => false | _ :: _ => true end.

(** [s == t] *)
Fixpoint eqb (s t : str) : bool :=
  match s, t with
  | [], [] => true
  | a :: s', b :: t' => (a =? b)%N && eqb s' t'
  | _, _ => false
  end.

(** [s.startswith(p)] *)
Fixpoint startswith (s p : str) {struct p} : bool :=
  match p with
  | [] => true
  | b :: p' =>
      match s with
      | [] => false
      | a :: s' => (a =? b)%N && startswith s' p'
      end
  end.

(** A slice bound [i] of a sequence of length [n], as Python normalises it:
    a negative bound counts from the end, and the result is clamped to
    [0..n]. *)
Definition clamp (n i : Z) : Z :=
  if i <? 0 then Z.max 0 (i + n) else Z.min i n.

(** [s[a:b]] *)
Definition slice (s : str) (a b : Z) : str :=
  let a' := clamp (len s) a in
  let b' := clamp (len s) b in
  take (Z.to_nat (b' - a')) (drop (Z.to_nat a') s).

(** [s[a:]] *)
Definition slice_from (s : str) (a : Z) : str :=
  drop (Z.to_nat (clamp (len s) a)) s.

(** [s[:b]] *)
Definition slice_to (s : str) (b : Z) : str :=
  take (Z.to_nat (clamp (len s) b)) s.

(** Search for [sub] in [s], whose first character sits at index [pos]. *)
Fixpoint find_at (sub s : str) (pos : nat) : Z :=
  if startswith s sub then Z.of_nat pos
  else match s with
       | [] => -1
       | _ :: s' => find_at sub s' (S pos)
       end.

(** [s.find(sub, start)] *)
Definition find (s sub : str) (start : Z) : Z :=
  let st := if start <? 0 then Z.max 0 (start + len s) else start in
  if len s <? st then -1
  else find_at sub (drop (Z.to_nat st) s) (Z.to_nat st).

(** [sub in s] *)
Definition contains (sub s : str) : bool :=
  negb (find s sub 0 =? -1).

Fixpoint lstrip (s : str) : str :=
  match s with
  | [] => []
  | c :: s' => if isspace c then lstrip s' else s
  end.

Fixpoint rstrip (s : str) : str :=
  match s with
  | [] => []
  | c :: s' =>
      match rstrip s' with
      | [] => if isspace c then [] else [c]
      | r => c :: r
      end
  end.

(** [s.strip()] *)
Definition strip (s : str) : str := rstrip (lstrip s).

(** [s.replace(old, new)] for the empty [new] the code uses: the
    occurrences of [old] are deleted left to right without overlap.  [skip]
    counts the characters of the current occurrence still to delete.  For an
    empty [old] Python inserts [new] between the characters, which changes
    nothing here. *)
Fixpoint remove_aux (old s : str) (skip : nat) : str :=
  match s with
  | [] => []
  | c :: s' =>
      match skip with
      | S k => remove_aux old s' k
      | O =>
          if startswith s old
          then remove_aux old s' (length old - 1)
          else c :: remove_aux old s' 0
      end
  end.

Definition remove (s old : str) : str :=
  match old with
  | [] => s
  | _ => remove_aux old s 0
  end.

(** [s.split()]: the maximal runs of non-space characters. *)
Fixpoint split_aux (cur s : str) : list str :=
  match s with
  | [] => if truthy cur then [cur] else []
  | c :: s' =>
      if isspace c
      then (if truthy cur then cur :: split_aux [] s'
            else split_aux [] s')
      else split_aux (cur ++ [c]) s'
  end.

Definition split (s : str) : list str := split_aux [] s.

(** [s.split(sep)] for a one-character separator. *)
Fixpoint split_on_aux (sep : N) (cur s : str) : list str :=
  match s with
  | [] => [cur]
  | c :: s' =>
      if (c =? sep)%N then cur :: split_on_aux sep [] s'
      else split_on_aux sep (cur ++ [c]) s'
  end.

Definition split_on (sep : N) (s : str) : list str :=
  split_on_aux sep [] s.

(** [sep.join(l)] *)
Fixpoint join (sep : str) (l : list str) : str :=
  match l with
  | [] => []
  | [x] => x
  | x :: rest => x ++ sep ++ join sep rest
  end.

(** The newline character. *)
Definition nl : str := [10%N].

(** The comma. *)
Definition comma : N := 44.

End PyStr.

(** ** A lower-casing to evaluate with *)

(** [lowercase_sample] is [str.lower] on the texts made of the code points
    below U+0100, of U+0130 and of the Greek letters U+0391 to U+03C9; the
    examples use no other.  On these a capital moves to its small letter,
    U+0130 becomes an i followed by U+0307, and a capital sigma becomes the
    final small sigma when a cased letter stands before it and none after
    it, characters that case rules ignore being passed over. *)

(** The cased letters among these code points. *)
Definition cased_sample (c : N) : bool :=
  (((65 <=? c) && (c <=? 90)) || ((97 <=? c) && (c <=? 122))
   || (c =? 170) || (c =? 181) || (c =? 186)
   || ((192 <=? c) && (c <=? 214)) || ((216 <=? c) && (c <=? 246))
   || ((248 <=? c) && (c <=? 255)) || (c =? 304)
   || ((913 <=? c) && (c <=? 929)) || ((931 <=? c) && (c <=? 937))
   || ((945 <=? c) && (c <=? 969)))%N.

(** The characters that case rules ignore among these code points. *)
Definition case_ignorable_sample (c : N) : bool :=
  ((c =? 39) || (c =? 46) || (c =? 58) || (c =? 94) || (c =? 96)
   || (c =? 168) || (c =? 173) || (c =? 175) || (c =? 180) || (c =? 183)
   || (c =? 184) || (c =? 775))%N.

(** Whether a cased letter comes first in [s] once the ignored characters are
    passed over. *)
Fixpoint cased_next_sample (s : str) : bool :=
  match s with
  | [] => false
  | c :: s' => if case_ignorable_sample c then cased_next_sample s' else cased_sample c
  end.

(** The small form of one character other than the capital sigma. *)
Definition lower_char_sample (c : N) : str :=
  if (((65 <=? c) && (c <=? 90))
      || ((192 <=? c) && (c <=? 222) && negb (c =? 215))
      || ((913 <=? c) && (c <=? 929)) || ((932 <=? c) && (c <=? 937)))%N
  then [(c + 32)%N]
  else if (c =? 304)%N then [105%N; 775%N]
  else [c].

(** [before] holds the characters already passed, the nearest first. *)
Fixpoint lower_from_sample (before s : str) : str :=
  match s with
  | [] => []
  | c :: s' =>
      (if (c =? 931)%N
       then (if cased_next_sample before && negb (cased_next_sample s')
             then [962%N] else [963%N])
       else lower_char_sample c)
      ++ lower_from_sample (c :: before) s'
  end.

Definition lowercase_sample (s : str) : str := lower_from_sample [] s.

(** [l[-n:]] on a list, for a positive [n]. *)
Definition lastn {A : Type} (n : nat) (l : list A) : list A :=
  drop (length l - n)%nat l.

(** ** Data model *)

(** [app/core/config.py]: the settings the service reads. *)
Record Settings := {
  MODEL_NAME : str;
  BUSINESS_NAME : str;
  BUSINESS_TYPE : str;
  BUSINESS_DETAILS : str;
  ALLOWED_TOPICS : str;
  RESTRICTED_TOPICS : str;
}.

(** [app/models/chat.py], [ChatMessage]. *)
Record ChatMessage := {
  role : str;
  content : str;
  timestamp : option Z;
}.

(** The dictionary built by [_load_business_config]. *)
Record BusinessConfig := {
  cfg_name : str;
  cfg_type : str;
  allowed_topics : list str;
  restricted_topics : list str;
}.

(** The attributes of [AIService] that [chat] reads or writes. *)
Record AIService := {
  model_name : str;
  conversation_memory : gmap str (list ChatMessage);
  business_config : BusinessConfig;
}.

(** The dictionary returned by [chat].  [response] holds a Python value that
    is a string or [None]. *)
Record ChatResult := {
  response : option str;
  conversation_id : str;
  model_used : str;
  tokens_used : Z;
}.

(** What a call of the text-generation pipeline does: it raises, or it
    returns its candidates, each given by its [generated_text]. *)
Inductive pipeline_outcome :=
| PipelineRaises
| PipelineReturns (candidates : list str).

(** The surroundings of one [chat] call. *)
Record Env := {
  uuid4 : str;
  pipeline : str -> pipeline_outcome;
}.

(** ** Exceptions and the state of [self] *)

Inductive exn := KeyError | IndexError | PipelineError.

Inductive outcome (A : Type) :=
| Ok (a : A)
| Raise (e : exn).
Arguments Ok {A} a.
Arguments Raise {A} e.

(** A computation on [self]: it returns or raises, and leaves [self] as it
    was at that moment. *)
Definition M (A : Type) : Type := AIService -> outcome A * AIService.

Definition ret {A} (a : A) : M A := fun self => (Ok a, self).

Definition raise {A} (e : exn) : M A := fun self => (Raise e, self).

Definition bind {A B} (m : M A) (k : A -> M B) : M B :=
  fun self =>
    match m self with
    | (Ok a, self') => k a self'
    | (Raise e, self') => (Raise e, self')
    end.

(** [try: body except Exception: handler] *)
Definition try_except {A} (body : M A) (handler : exn -> M A) : M A :=
  fun self =>
    match body self with
    | (Ok a, self') => (Ok a, self')
    | (Raise e, self') => handler e self'
    end.

Definition get_self : M AIService := fun self => (Ok self, self).

Definition set_memory (m : gmap str (list ChatMessage)) : M unit :=
  fun self =>
    (Ok tt, {| model_name := model_name self;
               conversation_memory := m;
               business_config := business_config self |}).

Notation "'let*' x ':=' m 'in' k" := (bind m (fun x => k))
  (at level 10, x name, m at level 100, k at level 200).

(** [self.conversation_memory[key]] *)
Definition memory_item (key : str) : M (list ChatMessage) :=
  let* self := get_self in
  match conversation_memory self !! key with
  | Some l => ret l
  | None => raise KeyError
  end.

(** [response[i]] on the list of candidates. *)
Definition list_item (l : list str) (i : nat) : M str :=
  match l !! i with
  | Some x => ret x
  | None => raise IndexError
  end.

(** ** The service *)

Section Service.

Variable lowercase : str -> str.
Variable settings : Settings.

(** [_load_business_config] *)
Definition _load_business_config : BusinessConfig :=
  {| cfg_name := BUSINESS_NAME settings;
     cfg_type := BUSINESS_TYPE settings;
     allowed_topics :=
       map PyStr.strip (PyStr.split_on PyStr.comma (ALLOWED_TOPICS settings));
     restricted_topics :=
       map PyStr.strip (PyStr.split_on PyStr.comma (RESTRICTED_TOPICS settings)) |}.

(** [__init__] *)
Definition AIService_init : AIService :=
  {| model_name := MODEL_NAME settings;
     conversation_memory := ∅;
     business_config := _load_business_config |}.

(** The redirect sentence of [_is_on_topic]. *)
Definition redirect (cfg : BusinessConfig) (restricted : str) : str :=
  py "I can't provide " ++ restricted ++ py ". Let me help you with "
    ++ cfg_type cfg ++ py " related questions instead.".

(** The loop of [_is_on_topic] over the restricted topics. *)
Fixpoint is_on_topic_loop (cfg : BusinessConfig) (message_lower : str)
    (topics : list str) : bool * option str :=
  match topics with
  | [] => (true, None)
  | restricted :: rest =>
      if PyStr.contains (PyStr.lower lowercase restricted) message_lower
      then (false, Some (redirect cfg restricted))
      else is_on_topic_loop cfg message_lower rest
  end.

(** [_is_on_topic] *)
Definition _is_on_topic (self : AIService) (message : str)
    : bool * option str :=
  let message_lower := PyStr.lower lowercase message in
  is_on_topic_loop (business_config self) message_lower
    (restricted_topics (business_config self)).

(** The keyword table of [_get_direct_answer], in the order of the
    dictionary literal. *)
Definition patterns : list (str * list str) :=
  [ ((py "hours"), [py "hours"; py "open"; py "close"; py "when are you open"; py "what time"]);
    ((py "location"), [py "location"; py "address"; py "where are you"; py "where located"]);
    ((py "contact"), [py "contact"; py "phone"; py "email"; py "call"; py "reach"]);
    ((py "pricing"), [py "price"; py "cost"; py "how much"; py "pricing"; py "plan"]);
    ((py "shipping"), [py "shipping"; py "delivery"; py "ship"]);
    ((py "returns"), [py "return"; py "refund"; py "money back"]);
    ((py "services"), [py "service"; py "what do you do"; py "what do you offer"]) ].

(** [any(keyword in message_lower for keyword in keywords)] *)
Definition any_keyword (message_lower : str) (keywords : list str) : bool :=
  existsb (fun keyword => PyStr.contains keyword message_lower) keywords.

(** The expression
    [details_full.find(".", start) if "." in details_full[start:] else len(details_full)],
    which six branches of [_get_direct_answer] share. *)
Definition dot_end (details_full : str) (start : Z) : Z :=
  if PyStr.contains (py ".") (PyStr.slice_from details_full start)
  then PyStr.find details_full (py ".") start
  else PyStr.len details_full.

(** The contact branch of [_get_direct_answer]. *)
Definition contact_answer (business_details details_full : str) : str :=
  let contact_info := [] in
  let contact_info :=
    if PyStr.contains (py "phone") business_details then
      let start := PyStr.find (PyStr.lower lowercase details_full) (py "phone") 0 in
      let end_ :=
        if PyStr.contains (py ",") (PyStr.slice details_full start (start + 50))
        then PyStr.find details_full (py ",") start else start + 40 in
      contact_info ++ [PyStr.strip (PyStr.slice details_full start end_)]
    else contact_info in
  let contact_info :=
    if PyStr.contains (py "email") business_details then
      let start := PyStr.find (PyStr.lower lowercase details_full) (py "email") 0 in
      let end_ :=
        if PyStr.contains (py ".") (PyStr.slice details_full start (start + 50))
        then PyStr.find details_full (py ".") start else start + 40 in
      contact_info ++ [PyStr.strip (PyStr.slice details_full start end_)]
    else contact_info in
  (py "You can reach us at: ") ++ PyStr.join (py ", ") contact_info
    ++ py ". We're here to help!".

(** The loop of [_get_direct_answer] over [patterns.items()]. *)
Fixpoint direct_answer_loop (message_lower business_details : str)
    (items : list (str * list str)) : option str :=
  match items with
  | [] => None
  | (topic, keywords) :: rest =>
      if any_keyword message_lower keywords then
        let details_full := BUSINESS_DETAILS settings in
        if PyStr.eqb topic (py "hours") && PyStr.contains (py "hours:") business_details then
          let start := PyStr.find (PyStr.lower lowercase details_full) (py "hours:") 0 in
          let end_ := dot_end details_full start in
          Some ((py "Our ") ++ PyStr.strip (PyStr.slice details_full start end_)
                  ++ py ". Is there anything else you'd like to know?")
        else if PyStr.eqb topic (py "location")
                && PyStr.contains (py "location:") business_details then
          let start := PyStr.find (PyStr.lower lowercase details_full) (py "location:") 0 in
          let end_ := dot_end details_full start in
          Some ((py "We're located at: ")
                  ++ PyStr.strip (PyStr.slice details_full (start + 9) end_)
                  ++ py ". Feel free to visit us!")
        else if PyStr.eqb topic (py "contact")
                && (PyStr.contains (py "phone") business_details
                    || PyStr.contains (py "email") business_details) then
          Some (contact_answer business_details details_full)
        else if PyStr.eqb topic (py "pricing")
                && PyStr.contains (py "pricing:") business_details then
          let start := PyStr.find (PyStr.lower lowercase details_full) (py "pricing:") 0 in
          let end_ := dot_end details_full start in
          Some ((py "Our ") ++ PyStr.strip (PyStr.slice details_full start end_)
                  ++ py ". Would you like more details on any specific plan?")
        else if PyStr.eqb topic (py "shipping")
                && PyStr.contains (py "shipping:") business_details then
          let start := PyStr.find (PyStr.lower lowercase details_full) (py "shipping:") 0 in
          let end_ := dot_end details_full start in
          Some ((py "Regarding ") ++ PyStr.strip (PyStr.slice details_full start end_)
                  ++ py ". Can I help you with anything else?")
        else if PyStr.eqb topic (py "returns")
                && PyStr.contains (py "return") business_details then
          let start := PyStr.find (PyStr.lower lowercase details_full) (py "return") 0 in
          let end_ := dot_end details_full start in
          Some ((py "Our return policy: ")
                  ++ PyStr.strip (PyStr.slice details_full start end_)
                  ++ py ". Let me know if you have questions!")
        else if PyStr.eqb topic (py "services")
                && PyStr.contains (py "services:") business_details then
          let start := PyStr.find (PyStr.lower lowercase details_full) (py "services:") 0 in
          let end_ := dot_end details_full start in
          Some ((py "We ") ++ PyStr.strip (PyStr.slice details_full (start + 9) end_)
                  ++ py ". What can I help you with today?")
        else direct_answer_loop message_lower business_details rest
      else direct_answer_loop message_lower business_details rest
  end.

(** [_get_direct_answer] *)
Definition _get_direct_answer (message : str) : option str :=
  let message_lower := PyStr.lower lowercase message in
  let business_details := PyStr.lower lowercase (BUSINESS_DETAILS settings) in
  direct_answer_loop message_lower business_details patterns.

(** [_build_conversation_context]; [max_context] is 3 unless given.  The
    slice [conversation_history[-max_context:]] is the whole list when
    [max_context] is 0. *)
Definition _build_conversation_context (conversation_history : list ChatMessage)
    (max_context : nat) : str :=
  match conversation_history with
  | [] => []
  | _ =>
      let recent_messages :=
        match max_context with
        | O => conversation_history
        | _ => lastn max_context conversation_history
        end in
      let context_parts :=
        map (fun msg =>
               let role := if PyStr.eqb (role msg) (py "user")
                           then py "Human" else py "Assistant" in
               role ++ py ": " ++ content msg)
            recent_messages in
      PyStr.join PyStr.nl context_parts
  end.

(** [_create_business_prompt] *)
Definition _create_business_prompt (self : AIService) (user_message context : str)
    : str :=
  let cfg := business_config self in
  (py "You are a helpful assistant for ") ++ cfg_name cfg ++ py ", a "
    ++ cfg_type cfg ++ py "." ++ PyStr.nl
    ++ PyStr.nl
    ++ py "BUSINESS INFORMATION:" ++ PyStr.nl
    ++ BUSINESS_DETAILS settings ++ PyStr.nl
    ++ PyStr.nl
    ++ py "GUIDELINES:" ++ PyStr.nl
    ++ py "- Be professional, helpful, and friendly" ++ PyStr.nl
    ++ py "- Use the business information above to answer questions accurately"
    ++ PyStr.nl
    ++ py "- Focus on topics related to: "
    ++ PyStr.join (py ", ") (allowed_topics cfg) ++ PyStr.nl
    ++ py "- If asked about unrelated topics, politely redirect to your area of expertise"
    ++ PyStr.nl
    ++ py "- Keep responses concise and helpful" ++ PyStr.nl
    ++ py "- End with a helpful question when appropriate" ++ PyStr.nl
    ++ PyStr.nl
    ++ py "CONVERSATION CONTEXT:" ++ PyStr.nl
    ++ context ++ PyStr.nl
    ++ PyStr.nl
    ++ py "USER: " ++ user_message ++ PyStr.nl
    ++ py "ASSISTANT:".

(** The sentences the service answers with when it has nothing better. *)
Definition rephrase_sentence : str :=
  py "I'm not sure how to respond to that. Could you please rephrase your question?".

Definition trouble_sentence : str :=
  py "I apologize, but I'm having trouble processing your request right now.".

Definition understand_sentence : str :=
  py "I understand your question. How can I help you further?".

Definition difficulties_sentence : str :=
  py "I apologize, but I'm experiencing technical difficulties. Please try again in a moment.".

(** The call [self.pipeline(prompt, ...)] handed to the executor. *)
Definition call_pipeline (env : Env) (prompt : str) : M (list str) :=
  match pipeline env prompt with
  | PipelineRaises => raise PipelineError
  | PipelineReturns candidates => ret candidates
  end.

(** [_generate_response] *)
Definition _generate_response (env : Env) (prompt : str) : M str :=
  try_except
    (let* response := call_pipeline env prompt in
     match response with
     | _ :: _ =>
         if (0 <? Z.of_nat (length response)) then
           let* first := list_item response 0 in
           ret first
         else ret rephrase_sentence
     | [] => ret rephrase_sentence
     end)
    (fun e => ret trouble_sentence).

Definition prefixes_to_remove : list str :=
  [py "ASSISTANT:"; py "Assistant:"; py "AI:"; py "Bot:"].

(** One round of the prefix loop of [_clean_response]. *)
Definition remove_prefix (cleaned prefix : str) : str :=
  if PyStr.startswith cleaned prefix
  then PyStr.strip (PyStr.slice_from cleaned (PyStr.len prefix))
  else cleaned.

(** [_clean_response] *)
Definition _clean_response (response original_message : str) : str :=
  if negb (PyStr.truthy response) then rephrase_sentence
  else
    let cleaned := PyStr.strip (PyStr.remove response original_message) in
    let cleaned := fold_left remove_prefix prefixes_to_remove cleaned in
    let cleaned := if negb (PyStr.truthy cleaned) then understand_sentence
                   else cleaned in
    let cleaned := if 500 <? PyStr.len cleaned
                   then PyStr.slice_to cleaned 500 ++ py "..."
                   else cleaned in
    cleaned.

(** The word count [len(s.split())]. *)
Definition word_count (s : str) : Z := Z.of_nat (length (PyStr.split s)).

(** The identifier [chat] works with: the caller's when it is a non-empty
    string, else the one drawn from [uuid.uuid4]. *)
Definition resolve_conversation_id (env : Env) (conversation_id : option str)
    : str :=
  match conversation_id with
  | Some cid => if PyStr.truthy cid then cid else uuid4 env
  | None => uuid4 env
  end.

(** The body of the [try] statement of [chat]. *)
Definition chat_try (env : Env) (message conversation_id : str)
    (conversation_history : option (list ChatMessage)) (context : option str)
    : M ChatResult :=
  let conversation_context :=
    match conversation_history with
    | Some ((_ :: _) as history) => _build_conversation_context history 3
    | _ => []
    end in
  let conversation_context :=
    match context with
    | Some ((_ :: _) as ctx) =>
        conversation_context ++ PyStr.nl ++ py "Additional Context: " ++ ctx
    | _ => conversation_context
    end in
  let* self := get_self in
  let prompt := _create_business_prompt self message conversation_context in
  let* response := _generate_response env prompt in
  let cleaned_response := _clean_response response message in
  let* self := get_self in
  let* _ :=
    match conversation_memory self !! conversation_id with
    | None => set_memory (<[conversation_id := []]> (conversation_memory self))
    | Some _ => ret tt
    end in
  let* turns := memory_item conversation_id in
  let* self := get_self in
  let* _ :=
    set_memory
      (<[conversation_id :=
           turns ++ [ {| role := py "user"; content := message; timestamp := None |};
                      {| role := py "assistant"; content := cleaned_response;
                         timestamp := None |} ]]>
         (conversation_memory self)) in
  let* turns := memory_item conversation_id in
  let* _ :=
    if 10 <? Z.of_nat (length turns) then
      let* turns := memory_item conversation_id in
      let* self := get_self in
      set_memory (<[conversation_id := lastn 10 turns]> (conversation_memory self))
    else ret tt in
  let* self := get_self in
  ret {| response := Some cleaned_response;
         conversation_id := conversation_id;
         model_used := model_name self;
         tokens_used := word_count cleaned_response |}.

(** [chat] *)
Definition chat (env : Env) (message : str) (conversation_id : option str)
    (conversation_history : option (list ChatMessage)) (context : option str)
    : M ChatResult :=
  let conversation_id := resolve_conversation_id env conversation_id in
  let* self := get_self in
  let '(is_appropriate, redirect_message) := _is_on_topic self message in
  if negb is_appropriate then
    ret {| response := redirect_message;
           conversation_id := conversation_id;
           model_used := py "business_rules";
           tokens_used := 0 |}
  else
    let direct_answer := _get_direct_answer message in
    match direct_answer with
    | Some ((_ :: _) as answer) =>
        ret {| response := Some answer;
               conversation_id := conversation_id;
               model_used := py "business_knowledge";
               tokens_used := word_count answer |}
    | _ =>
        try_except
          (chat_try env message conversation_id conversation_history context)
          (fun e =>
             ret {| response := Some difficulties_sentence;
                    conversation_id := conversation_id;
                    model_used := py "error_handler";
                    tokens_used := 0 |})
    end.

(** [get_conversation_history] *)
Definition get_conversation_history (self : AIService) (conversation_id : str)
    : list ChatMessage :=
  default [] (conversation_memory self !! conversation_id).

(** [clear_conversation] *)
Definition clear_conversation (conversation_id : str) : M unit :=
  let* self := get_self in
  match conversation_memory self !! conversation_id with
  | Some _ => set_memory (delete conversation_id (conversation_memory self))
  | None => ret tt
  end.

End Service.

(** ** Sequences of calls *)

(** A request to the service: a [chat] call with its surroundings, or a
    [clear_conversation] call.  The statements of [chat] that touch
    [conversation_memory] come after its only suspension point and run
    without interruption, so a sequence of calls acts on the memory as the
    calls taken one after the other. *)
Inductive op :=
| OpChat (env : Env) (message : str) (conversation_id : option str)
    (conversation_history : option (list ChatMessage)) (context : option str)
| OpClear (conversation_id : str).

Section Traces.

Variable lowercase : str -> str.
Variable settings : Settings.

Definition step (self : AIService) (o : op) : AIService :=
  match o with
  | OpChat env message cid history context =>
      snd (chat lowercase settings env message cid history context self)
  | OpClear cid => snd (clear_conversation cid self)
  end.

Definition run (ops : list op) (self : AIService) : AIService :=
  fold_left step ops self.

(** The text [_generate_response] hands back, whatever the pipeline did. *)
Definition generated_text (env : Env) (prompt : str) : str :=
  match pipeline env prompt with
  | PipelineRaises => trouble_sentence
  | PipelineReturns [] => rephrase_sentence
  | PipelineReturns (first :: _) => first
  end.

(** The context string [chat] builds before composing the prompt. *)
Definition context_of (conversation_history : option (list ChatMessage))
    (context : option str) : str :=
  let conversation_context :=
    match conversation_history with
    | Some ((_ :: _) as history) => _build_conversation_context history 3
    | _ => []
    end in
  match context with
  | Some ((_ :: _) as ctx) =>
      conversation_context ++ PyStr.nl ++ py "Additional Context: " ++ ctx
  | _ => conversation_context
  end.

(** The cleaned reply of a call that reaches the generator. *)
Definition reply_text (self : AIService) (env : Env) (message : str)
    (conversation_history : option (list ChatMessage)) (context : option str)
    : str :=
  _clean_response
    (generated_text env
       (_create_business_prompt settings self message
          (context_of conversation_history context)))
    message.

(** A message reaches the generator when the topic gate lets it through and
    the fact extractor has no answer for it. *)
Definition on_generation_path (self : AIService) (message : str) : bool :=
  fst (_is_on_topic lowercase self message)
  && match _get_direct_answer lowercase settings message with
     | Some (_ :: _) => false
     | _ => true
     end.

Definition user_turn (message : str) : ChatMessage :=
  {| role := py "user"; content := message; timestamp := None |}.

Definition assistant_turn (text : str) : ChatMessage :=
  {| role := py "assistant"; content := text; timestamp := None |}.

(** The memory after the turns of one exchange were stored under [cid]. *)
Definition remember (self : AIService) (cid : str) (turns : list ChatMessage)
    : AIService :=
  let l := get_conversation_history self cid ++ turns in
  {| model_name := model_name self;
     conversation_memory :=
       <[cid := if 10 <? Z.of_nat (length l) then lastn 10 l else l]>
         (conversation_memory self);
     business_config := business_config self |}.

(** The turns a request appends to the conversation [id]; [self] is read
    for its configuration only. *)
Definition appended (self : AIService) (o : op) (id : str) : list ChatMessage :=
  match o with
  | OpChat env message cid history context =>
      if on_generation_path self message
         && PyStr.eqb (resolve_conversation_id env cid) id
      then [user_turn message;
            assistant_turn (reply_text self env message history context)]
      else []
  | OpClear _ => []
  end.

(** All the turns appended to the conversation [id] since it was last
    cleared, oldest first; [acc] holds those appended before [ops]. *)
Fixpoint log (self : AIService) (ops : list op) (id : str)
    (acc : list ChatMessage) : list ChatMessage :=
  match ops with
  | [] => acc
  | OpClear cid :: rest =>
      log self rest id (if PyStr.eqb cid id then [] else acc)
  | o :: rest => log self rest id (acc ++ appended self o id)
  end.

End Traces.

(** ** Sample configurations *)

(** The defaults of [app/core/config.py]. *)
Definition default_settings : Settings :=
  {| MODEL_NAME := py "microsoft/DialoGPT-medium";
     BUSINESS_NAME := py "Demo Business";
     BUSINESS_TYPE := py "customer service";
     BUSINESS_DETAILS := py "No specific business details configured yet.";
     ALLOWED_TOPICS := py "general questions,product information,pricing,support";
     RESTRICTED_TOPICS :=
       py "medical advice,legal advice,financial advice,personal information" |}.

(** The defaults with another business-details text. *)
Definition settings_with_details (details : str) : Settings :=
  {| MODEL_NAME := MODEL_NAME default_settings;
     BUSINESS_NAME := BUSINESS_NAME default_settings;
     BUSINESS_TYPE := BUSINESS_TYPE default_settings;
     BUSINESS_DETAILS := details;
     ALLOWED_TOPICS := ALLOWED_TOPICS default_settings;
     RESTRICTED_TOPICS := RESTRICTED_TOPICS default_settings |}.


Definition sample_uuid : str := py "123e4567-e89b-42d3-a456-426614174000".

(** Surroundings in which the pipeline raises. *)
Definition failing_env : Env :=
  {| uuid4 := sample_uuid; pipeline := fun _ => PipelineRaises |}.

(** Surroundings in which the pipeline returns one candidate. *)
Definition answering_env (text : str) : Env :=
  {| uuid4 := sample_uuid; pipeline := fun _ => PipelineReturns [text] |}.

(** ** The cleaner as the specification words it *)

(** Step 2 of the specification: a role label at the start is cut off. *)
Definition cut_prefix (text prefix : str) : str :=
  if PyStr.startswith text prefix
  then PyStr.slice_from text (PyStr.len prefix)
  else text.

(** The four steps of the specification, in its order: delete the
    occurrences of the original message, cut the role labels off the start,
    put the canned sentence in place of an empty text, cut the text after 500
    characters and mark the cut. *)
Definition clean_as_specified (raw original_message : str) : str :=
  let text := PyStr.remove raw original_message in
  let text := fold_left cut_prefix prefixes_to_remove text in
  let text := if PyStr.truthy text then text else understand_sentence in
  if 500 <? PyStr.len text then PyStr.slice_to text 500 ++ py "..." else text.

(** ** The fact extractor as a table *)

(** The text up to the next occurrence of the character [stop], or all of it
    when it holds none. *)
Fixpoint until (stop : N) (text : str) : str :=
  match text with
  | [] => []
  | c :: rest => if (c =? stop)%N then [] else c :: until stop rest
  end.

(** The full stop. *)
Definition dot : N := 46.

(** What stands in [text] before the first occurrence of [sub]; all of
    [text] when [sub] does not occur. *)
Fixpoint text_before (sub text : str) : str :=
  if PyStr.startswith text sub then []
  else match text with
       | [] => []
       | c :: rest => c :: text_before sub rest
       end.

Section Table.

Variable lowercase : str -> str.

(** Whether the anchor of a topic occurs in the lower-cased details. *)
Definition anchor_present (topic business_details : str) : bool :=
  if PyStr.eqb topic (py "hours") then PyStr.contains (py "hours:") business_details
  else if PyStr.eqb topic (py "location") then
    PyStr.contains (py "location:") business_details
  else if PyStr.eqb topic (py "contact") then
    PyStr.contains (py "phone") business_details
    || PyStr.contains (py "email") business_details
  else if PyStr.eqb topic (py "pricing") then
    PyStr.contains (py "pricing:") business_details
  else if PyStr.eqb topic (py "shipping") then
    PyStr.contains (py "shipping:") business_details
  else if PyStr.eqb topic (py "returns") then
    PyStr.contains (py "return") business_details
  else if PyStr.eqb topic (py "services") then
    PyStr.contains (py "services:") business_details
  else false.

(** The index at which [anchor] first occurs in the lower-cased details: the
    number of characters that stand before it there. *)
Definition anchor_index (details anchor : str) : nat :=
  length (text_before anchor (PyStr.lower lowercase details)).

(** The text of the details that starts at the index at which [anchor] first
    occurs in the lower-cased details and runs up to the next full stop, or
    up to the end when no full stop follows; without its first [skip]
    characters, and trimmed. *)
Definition sentence_from (details anchor : str) (skip : nat) : str :=
  PyStr.strip (drop skip (until dot (drop (anchor_index details anchor) details))).

(** One piece of the contact reply: the text of the details that starts at
    the index at which [anchor] first occurs in the lower-cased details and
    runs up to the next [stop] when one stands among the first 50 characters
    from there, and over 40 characters otherwise; trimmed. *)
Definition contact_piece (details anchor : str) (stop : N) : str :=
  let rest := drop (anchor_index details anchor) details in
  PyStr.strip
    (if existsb (fun c => (c =? stop)%N) (take 50 rest)
     then until stop rest
     else take 40 rest).

(** The contact reply: the phone piece, bounded by a comma, and the email
    piece, bounded by a full stop, each when its anchor occurs, joined. *)
Definition contact_reply (details : str) : str :=
  let business_details := PyStr.lower lowercase details in
  let pieces :=
    (if PyStr.contains (py "phone") business_details
     then [contact_piece details (py "phone") PyStr.comma] else [])
    ++ (if PyStr.contains (py "email") business_details
        then [contact_piece details (py "email") dot] else []) in
  py "You can reach us at: " ++ PyStr.join (py ", ") pieces
    ++ py ". We're here to help!".

(** The reply of a topic whose anchor is present. *)
Definition answer_for (topic details : str) : str :=
  if PyStr.eqb topic (py "hours") then
    py "Our " ++ sentence_from details (py "hours:") 0
      ++ py ". Is there anything else you'd like to know?"
  else if PyStr.eqb topic (py "location") then
    py "We're located at: " ++ sentence_from details (py "location:") 9
      ++ py ". Feel free to visit us!"
  else if PyStr.eqb topic (py "contact") then
    contact_reply details
  else if PyStr.eqb topic (py "pricing") then
    py "Our " ++ sentence_from details (py "pricing:") 0
      ++ py ". Would you like more details on any specific plan?"
  else if PyStr.eqb topic (py "shipping") then
    py "Regarding " ++ sentence_from details (py "shipping:") 0
      ++ py ". Can I help you with anything else?"
  else if PyStr.eqb topic (py "returns") then
    py "Our return policy: " ++ sentence_from details (py "return") 0
      ++ py ". Let me know if you have questions!"
  else if PyStr.eqb topic (py "services") then
    py "We " ++ sentence_from details (py "services:") 9
      ++ py ". What can I help you with today?"
  else [].

(** A topic answers a message when one of its keywords occurs in the
    lower-cased message and its anchor occurs in the lower-cased details. *)
Definition answerable (message_lower business_details : str)
    (item : str * list str) : bool :=
  any_keyword message_lower (snd item) && anchor_present (fst item) business_details.

End Table.

(** ** Loading the model *)

(** The name [initialize] falls back to. *)
Definition fallback_model_name : str := py "microsoft/DialoGPT-small".

(** A construction [pipeline("text-generation", model=..., device=..., ...)]:
    [load model device] tells whether it returns; when it does not, it raises.
    The pipeline object itself is not kept in [AIService]: what a loaded
    pipeline does in a call is given by the [Env] of that call. *)
Definition load_pipeline (load : str -> Z -> bool) (model : str) (device : Z)
    : M unit :=
  if load model device then ret tt else raise PipelineError.

Definition set_model_name (name : str) : M unit :=
  fun self =>
    (Ok tt, {| model_name := name;
               conversation_memory := conversation_memory self;
               business_config := business_config self |}).

(** [initialize]; [device] is [self.device]. *)
Definition initialize (load : str -> Z -> bool) (device : Z) : M unit :=
  try_except
    (let* self := get_self in
     load_pipeline load (model_name self) device)
    (fun e =>
       try_except
         (let* _ := set_model_name fallback_model_name in
          let* self := get_self in
          load_pipeline load (model_name self) (-1))
         (fun fallback_error => raise fallback_error)).

(** ** The chat endpoint *)

(** The body of a POST to the chat route, as sent: the message may be
    missing; the other fields hold what was sent or their default. *)
Record ChatBody := {
  body_message : option str;
  body_conversation_id : option str;
  body_context : option str;
  body_conversation_history : option (list ChatMessage);
}.

(** [app/models/chat.py], [ChatRequest]: a body that passed validation. *)
Record ChatRequest := {
  request_message : str;
  request_conversation_id : option str;
  request_context : option str;
  request_conversation_history : option (list ChatMessage);
}.

(** [app/models/chat.py], [ChatResponse], without [processing_time]. *)
Record ChatResponse := {
  response_text : str;
  response_conversation_id : str;
  response_model_used : str;
  response_tokens_used : option Z;
}.

(** What an endpoint answers: the body of a 200 reply, or the status of the
    error reply. *)
Inductive http (A : Type) :=
| Http200 (body : A)
| HttpError (status : Z).
Arguments Http200 {A} body.
Arguments HttpError {A} status.

(** The validation of [ChatRequest]: [message] is required and has from 1 to
    1000 characters. *)
Definition validate_chat_request (body : ChatBody) : option ChatRequest :=
  match body_message body with
  | Some message =>
      if (1 <=? PyStr.len message) && (PyStr.len message <=? 1000)
      then Some {| request_message := message;
                   request_conversation_id := body_conversation_id body;
                   request_context := body_context body;
                   request_conversation_history := body_conversation_history body |}
      else None
  | None => None
  end.

(** The construction of a [ChatResponse] from the keys of [result]: the model
    wants a text as [response]; a [None] there makes the construction
    raise. *)
Definition make_chat_response (result : ChatResult) : option ChatResponse :=
  match response result with
  | Some text =>
      Some {| response_text := text;
              response_conversation_id := conversation_id result;
              response_model_used := model_used result;
              response_tokens_used := Some (tokens_used result) |}
  | None => None
  end.

Section Endpoint.

Variable lowercase : str -> str.
Variable settings : Settings.

(** [app/api/chat.py], [chat_endpoint], given the service. *)
Definition chat_endpoint (env : Env) (chat_request : ChatRequest)
    (ai_service : AIService) : http ChatResponse * AIService :=
  match chat lowercase settings env (request_message chat_request)
          (request_conversation_id chat_request)
          (request_conversation_history chat_request)
          (request_context chat_request) ai_service with
  | (Ok result, ai_service') =>
      match make_chat_response result with
      | Some body => (Http200 body, ai_service')
      | None => (HttpError 500, ai_service')
      end
  | (Raise e, ai_service') => (HttpError 500, ai_service')
  end.

(** The chat route with the service at hand: a body that fails the
    validation is answered 422 before [chat_endpoint] is called. *)
Definition post_chat (env : Env) (body : ChatBody) (ai_service : AIService)
    : http ChatResponse * AIService :=
  match validate_chat_request body with
  | Some chat_request => chat_endpoint env chat_request ai_service
  | None => (HttpError 422, ai_service)
  end.

End Endpoint.

(** ** Counting *)

(** The number of occurrences of a character in a text. *)
Fixpoint count_char (c : N) (s : str) : nat :=
  match s with
  | [] => 0
  | a :: s' => (if (a =? c)%N then 1 else 0) + count_char c s'
  end.

(** ** Lists and strings *)

Lemma str_eqb_spec (s t : str) : reflect (s = t) (PyStr.eqb s t).
Proof.
  revert t. induction s as [|a s IH]; intros [|b t]; cbn [PyStr.eqb];
    try (constructor; congruence).
  destruct (N.eqb_spec a b) as [->|Hab]; cbn [andb].
  - destruct (IH t) as [->|Hst]; constructor; congruence.
  - constructor. congruence.
Qed.

Lemma lastn_length {A} (n : nat) (l : list A) : (length (lastn n l) <= n)%nat.
Proof. unfold lastn. rewrite length_drop. lia. Qed.

Lemma lastn_all {A} (n : nat) (l : list A) :
  (length l <= n)%nat -> lastn n l = l.
Proof.
  intros H. unfold lastn. replace (length l - n)%nat with 0%nat by lia.
  reflexivity.
Qed.

Lemma lastn_app_lastn {A} (n : nat) (l x : list A) :
  lastn n (lastn n l ++ x) = lastn n (l ++ x).
Proof.
  destruct (Nat.le_gt_cases (length l) n) as [Hle|Hgt].
  - rewrite (lastn_all n l) by exact Hle. reflexivity.
  - assert (Hlen : length (lastn n l) = n)
      by (unfold lastn; rewrite length_drop; lia).
    unfold lastn at 1 3. rewrite !length_app, Hlen.
    replace (n + length x - n)%nat with (length x) by lia.
    assert (Hsplit : l = take (length l - n) l ++ lastn n l)
      by (unfold lastn; symmetry; apply take_drop).
    rewrite Hsplit at 3. rewrite <- app_assoc.
    replace (length l + length x - n)%nat
      with ((length l - n) + length x)%nat by lia.
    rewrite drop_app_add' by (rewrite length_take; lia).
    reflexivity.
Qed.

Lemma truncate_is_lastn {A} (l : list A) :
  (if 10 <? Z.of_nat (length l) then lastn 10 l else l) = lastn 10 l.
Proof.
  destruct (10 <? Z.of_nat (length l)) eqn:E; [reflexivity|].
  apply Z.ltb_ge in E. symmetry. apply lastn_all. lia.
Qed.

(** ** How [chat] runs *)

Section ChatRuns.

Variable lowercase : str -> str.
Variable settings : Settings.

Lemma generate_response_run (env : Env) (prompt : str) (self : AIService) :
  _generate_response env prompt self = (Ok (generated_text env prompt), self).
Proof.
  unfold _generate_response, generated_text, try_except, bind, call_pipeline.
  destruct (pipeline env prompt) as [|[|first rest]]; reflexivity.
Qed.

Lemma self_eta (self : AIService) :
  {| model_name := model_name self;
     conversation_memory := conversation_memory self;
     business_config := business_config self |} = self.
Proof. destruct self; reflexivity. Qed.

(** The [try] body of [chat] always runs to its [return]. *)
Lemma chat_try_run (env : Env) (message cid : str)
    (history : option (list ChatMessage)) (context : option str)
    (self : AIService) :
  let reply := reply_text settings self env message history context in
  chat_try settings env message cid history context self
  = (Ok {| response := Some reply;
           conversation_id := cid;
           model_used := model_name self;
           tokens_used := word_count reply |},
     remember self cid [user_turn message; assistant_turn reply]).
Proof.
  intros reply. unfold chat_try.
  fold (context_of history context).
  unfold bind at 1. unfold get_self at 1.
  unfold bind at 1. rewrite generate_response_run.
  fold (reply_text settings self env message history context). fold reply.
  unfold bind, get_self, memory_item, set_memory, ret, raise, remember,
    get_conversation_history, user_turn, assistant_turn.
  destruct (conversation_memory self !! cid) as [turns|] eqn:Hcid; cbn.
  - rewrite Hcid; cbn. rewrite lookup_insert_eq; cbn.
    destruct (10 <? Z.of_nat (length (turns ++ _))) eqn:Hlen; cbn.
    + rewrite lookup_insert_eq; cbn. rewrite insert_insert_eq. reflexivity.
    + reflexivity.
  - rewrite lookup_insert_eq; cbn. rewrite insert_insert_eq.
    rewrite lookup_insert_eq; cbn. reflexivity.
Qed.

End ChatRuns.

Section ChatCases.

Variable lowercase : str -> str.
Variable settings : Settings.

(** The three ways out of [chat]. *)
Lemma chat_rejected (env : Env) (message : str) (cid : option str)
    (history : option (list ChatMessage)) (context : option str)
    (self : AIService) (redirect_message : option str) :
  _is_on_topic lowercase self message = (false, redirect_message) ->
  chat lowercase settings env message cid history context self
  = (Ok {| response := redirect_message;
           conversation_id := resolve_conversation_id env cid;
           model_used := py "business_rules";
           tokens_used := 0 |}, self).
Proof.
  intros Hgate. unfold chat, bind, get_self. rewrite Hgate. reflexivity.
Qed.

Lemma chat_direct (env : Env) (message : str) (cid : option str)
    (history : option (list ChatMessage)) (context : option str)
    (self : AIService) (answer : str) :
  fst (_is_on_topic lowercase self message) = true ->
  _get_direct_answer lowercase settings message = Some answer ->
  PyStr.truthy answer = true ->
  chat lowercase settings env message cid history context self
  = (Ok {| response := Some answer;
           conversation_id := resolve_conversation_id env cid;
           model_used := py "business_knowledge";
           tokens_used := word_count answer |}, self).
Proof.
  intros Hgate Hanswer Htruthy. unfold chat, bind, get_self.
  destruct (_is_on_topic lowercase self message) as [ok redirect_message].
  cbn in Hgate. subst ok. cbn [negb]. rewrite Hanswer.
  destruct answer; [discriminate|reflexivity].
Qed.

Lemma chat_generated (env : Env) (message : str) (cid : option str)
    (history : option (list ChatMessage)) (context : option str)
    (self : AIService) :
  on_generation_path lowercase settings self message = true ->
  let reply := reply_text settings self env message history context in
  let id := resolve_conversation_id env cid in
  chat lowercase settings env message cid history context self
  = (Ok {| response := Some reply;
           conversation_id := id;
           model_used := model_name self;
           tokens_used := word_count reply |},
     remember self id [user_turn message; assistant_turn reply]).
Proof.
  intros Hpath reply id. unfold on_generation_path in Hpath.
  apply andb_prop in Hpath as [Hgate Hnone].
  unfold chat, bind, get_self.
  destruct (_is_on_topic lowercase self message) as [ok redirect_message].
  cbn in Hgate. subst ok. cbn [negb].
  fold id.
  destruct (_get_direct_answer lowercase settings message) as [[|c answer]|];
    try discriminate;
    unfold try_except; rewrite chat_try_run; reflexivity.
Qed.

(** A call that does not reach the generator leaves [self] as it was. *)
Lemma chat_elsewhere (env : Env) (message : str) (cid : option str)
    (history : option (list ChatMessage)) (context : option str)
    (self : AIService) :
  on_generation_path lowercase settings self message = false ->
  snd (chat lowercase settings env message cid history context self) = self.
Proof.
  unfold on_generation_path. intros Hpath.
  destruct (_is_on_topic lowercase self message) as [ok redirect_message] eqn:Hgate.
  destruct ok.
  - cbn [fst andb] in Hpath.
    destruct (_get_direct_answer lowercase settings message) as [[|c answer]|] eqn:Hanswer;
      try discriminate.
    erewrite chat_direct; [reflexivity| |exact Hanswer|reflexivity].
    rewrite Hgate. reflexivity.
  - erewrite chat_rejected by exact Hgate. reflexivity.
Qed.

(** [chat] returns a result on every input, under the identifier it
    resolved at its start. *)
Lemma chat_returns (env : Env) (message : str) (cid : option str)
    (history : option (list ChatMessage)) (context : option str)
    (self : AIService) :
  exists r self',
    chat lowercase settings env message cid history context self = (Ok r, self')
    /\ conversation_id r = resolve_conversation_id env cid.
Proof.
  destruct (on_generation_path lowercase settings self message) eqn:Hpath.
  - rewrite chat_generated by exact Hpath. eauto.
  - unfold on_generation_path in Hpath.
    destruct (_is_on_topic lowercase self message) as [ok redirect_message] eqn:Hgate.
    destruct ok.
    + cbn [fst andb] in Hpath.
      destruct (_get_direct_answer lowercase settings message) as [[|c answer]|] eqn:Hanswer;
        try discriminate.
      erewrite chat_direct; [eauto| |exact Hanswer|reflexivity].
      rewrite Hgate. reflexivity.
    + erewrite chat_rejected by exact Hgate. eauto.
Qed.

(** The topic gate and the reply read the configuration of [self] only. *)
Lemma is_on_topic_config (s1 s2 : AIService) (message : str) :
  business_config s1 = business_config s2 ->
  _is_on_topic lowercase s1 message = _is_on_topic lowercase s2 message.
Proof. unfold _is_on_topic. intros ->. reflexivity. Qed.

Lemma step_config (self : AIService) (o : op) :
  business_config (step lowercase settings self o) = business_config self.
Proof.
  destruct o as [env message cid history context|cid]; cbn [step].
  - destruct (on_generation_path lowercase settings self message) eqn:Hpath.
    + rewrite chat_generated by exact Hpath. reflexivity.
    + rewrite chat_elsewhere by exact Hpath. reflexivity.
  - unfold clear_conversation, bind, get_self.
    destruct (conversation_memory self !! cid); reflexivity.
Qed.

Lemma appended_config (s1 s2 : AIService) (o : op) (id : str) :
  business_config s1 = business_config s2 ->
  appended lowercase settings s1 o id = appended lowercase settings s2 o id.
Proof.
  intros Hcfg. destruct o as [env message cid history context|cid]; [|reflexivity].
  unfold appended, on_generation_path, reply_text, _create_business_prompt.
  rewrite (is_on_topic_config s1 s2) by exact Hcfg. rewrite Hcfg. reflexivity.
Qed.

Lemma log_config (s1 s2 : AIService) (ops : list op) (id : str)
    (acc : list ChatMessage) :
  business_config s1 = business_config s2 ->
  log lowercase settings s1 ops id acc = log lowercase settings s2 ops id acc.
Proof.
  intros Hcfg. revert acc.
  induction ops as [|o ops IH]; intros acc; [reflexivity|].
  destruct o as [env message cid history context|cid]; cbn [log].
  - rewrite (appended_config s1 s2) by exact Hcfg. apply IH.
  - apply IH.
Qed.

(** What one request does to the history of the conversation [id]. *)
Lemma step_history (self : AIService) (o : op) (id : str)
    (acc : list ChatMessage) :
  get_conversation_history self id = lastn 10 acc ->
  get_conversation_history (step lowercase settings self o) id
  = lastn 10 (log lowercase settings self [o] id acc).
Proof.
  intros Hinv. destruct o as [env message cid history context|cid]; cbn [step log].
  - unfold appended.
    destruct (on_generation_path lowercase settings self message) eqn:Hpath.
    + rewrite chat_generated by exact Hpath. cbn [snd andb].
      unfold remember, get_conversation_history at 1. cbn [conversation_memory].
      destruct (str_eqb_spec (resolve_conversation_id env cid) id) as [->|Hne].
      * rewrite lookup_insert_eq. cbn [default].
        rewrite truncate_is_lastn, Hinv. apply lastn_app_lastn.
      * rewrite lookup_insert_ne by exact Hne.
        rewrite app_nil_r. exact Hinv.
    + rewrite chat_elsewhere by exact Hpath. cbn [andb].
      rewrite app_nil_r. exact Hinv.
  - unfold clear_conversation, bind, get_self, set_memory.
    destruct (str_eqb_spec cid id) as [->|Hne].
    + unfold get_conversation_history.
      destruct (conversation_memory self !! id) eqn:Hid; cbn.
      * rewrite lookup_delete_eq. reflexivity.
      * rewrite Hid. reflexivity.
    + unfold get_conversation_history in *.
      destruct (conversation_memory self !! cid) eqn:Hcid; cbn.
      * rewrite lookup_delete_ne by exact Hne. exact Hinv.
      * exact Hinv.
Qed.

(** The history of a conversation is the last ten turns of its log. *)
Lemma run_history (ops : list op) (self : AIService) (id : str)
    (acc : list ChatMessage) :
  get_conversation_history self id = lastn 10 acc ->
  get_conversation_history (run lowercase settings ops self) id
  = lastn 10 (log lowercase settings self ops id acc).
Proof.
  revert self acc.
  induction ops as [|o ops IH]; intros self acc Hinv; [exact Hinv|].
  cbn [run fold_left]. fold (run lowercase settings ops (step lowercase settings self o)).
  pose proof (step_history self o id acc Hinv) as Hstep.
  rewrite (IH _ _ Hstep).
  rewrite (log_config (step lowercase settings self o) self) by apply step_config.
  destruct o; reflexivity.
Qed.

End ChatCases.

(** ** The topic gate *)


Lemma is_on_topic_loop_pass (lowercase : str -> str) (cfg : BusinessConfig) (message_lower : str)
    (topics : list str) :
  Forall (fun t => PyStr.contains (PyStr.lower lowercase t) message_lower = false) topics ->
  is_on_topic_loop lowercase cfg message_lower topics = (true, None).
Proof.
  induction 1 as [|t topics Ht _ IH]; cbn [is_on_topic_loop]; [reflexivity|].
  rewrite Ht. exact IH.
Qed.




(** The redirect of the scenario of the specification. *)
Example medical_advice_redirect :
  fst (chat lowercase_sample default_settings failing_env
         (py "Can you give me medical advice?")
         None None None (AIService_init default_settings))
  = Ok {| response :=
            Some (py "I can't provide medical advice. Let me help you with customer service related questions instead.");
          conversation_id := sample_uuid;
          model_used := py "business_rules";
          tokens_used := 0 |}.
Proof. vm_compute. reflexivity. Qed.

(** ** The conversation memory *)

Lemma log_nothing (lowercase : str -> str) (settings : Settings) (self : AIService) (ops : list op)
    (id : str) :
  Forall (fun o => appended lowercase settings self o id = []) ops ->
  log lowercase settings self ops id [] = [].
Proof.
  induction 1 as [|o ops Ho _ IH]; [reflexivity|].
  destruct o as [env message cid history context|cid]; cbn [log].
  - rewrite Ho. exact IH.
  - destruct (PyStr.eqb cid id); exact IH.
Qed.

Lemma init_history (settings : Settings) (id : str) :
  get_conversation_history (AIService_init settings) id = lastn 10 [].
Proof. reflexivity. Qed.

(** C2.  Start from a fresh service and make any sequence of [chat] and
    [clear_conversation] calls.  The history of every conversation then holds
    at most ten turns, and they are the last ten (or all, when there are
    fewer) of the turns appended to that conversation by the calls that
    reached the generator, in the order in which they were appended: the
    oldest turns are the ones evicted. *)
Theorem history_keeps_last_ten (lowercase : str -> str) (settings : Settings) (ops : list op) (id : str) :
  let self := run lowercase settings ops (AIService_init settings) in
  let turns := log lowercase settings (AIService_init settings) ops id [] in
  (length (get_conversation_history self id) <= 10)%nat
  /\ get_conversation_history self id = lastn 10 turns
  /\ exists evicted, turns = evicted ++ get_conversation_history self id.
Proof.
  intros self turns.
  assert (Hhist : get_conversation_history self id = lastn 10 turns)
    by apply run_history, init_history.
  rewrite Hhist. split; [apply lastn_length|]. split; [reflexivity|].
  exists (take (length turns - 10) turns). unfold lastn.
  symmetry. apply take_drop.
Qed.

(** Two exchanges leave four turns, in call order. *)
Example two_exchanges :
  get_conversation_history
    (run lowercase_sample default_settings
       [OpChat (answering_env (py "Hi! How can I help?")) (py "Hello there") (Some (py "c1"))
          None None;
        OpChat (answering_env (py "Glad to hear it.")) (py "All good") (Some (py "c1"))
          None None]
       (AIService_init default_settings)) (py "c1")
  = [user_turn (py "Hello there"); assistant_turn (py "Hi! How can I help?");
     user_turn (py "All good"); assistant_turn (py "Glad to hear it.")].
Proof. vm_compute. reflexivity. Qed.

(** Six exchanges leave the last five. *)
Example six_exchanges :
  let ask text := OpChat (answering_env (py "Noted.")) text (Some (py "c1")) None None in
  get_conversation_history
    (run lowercase_sample default_settings
       [ask (py "one"); ask (py "two"); ask (py "three"); ask (py "four"); ask (py "five"); ask (py "six")]
       (AIService_init default_settings)) (py "c1")
  = [user_turn (py "two"); assistant_turn (py "Noted.");
     user_turn (py "three"); assistant_turn (py "Noted.");
     user_turn (py "four"); assistant_turn (py "Noted.");
     user_turn (py "five"); assistant_turn (py "Noted.");
     user_turn (py "six"); assistant_turn (py "Noted.")].
Proof. vm_compute. reflexivity. Qed.

(** C9.  The history of a conversation that is not in the memory is empty,
    and nothing is raised; so is the history of a conversation to which no
    call has appended.  Clearing a conversation that is not in the memory
    changes nothing.  After [clear_conversation], which returns normally on
    every identifier, the history of that conversation is empty. *)
Theorem unknown_and_cleared_are_empty (lowercase : str -> str) (settings : Settings) (self : AIService)
    (id : str) (ops : list op) :
  (conversation_memory self !! id = None -> get_conversation_history self id = [])
  /\ (Forall (fun o => appended lowercase settings (AIService_init settings) o id = []) ops ->
      get_conversation_history (run lowercase settings ops (AIService_init settings)) id = [])
  /\ (conversation_memory self !! id = None ->
      clear_conversation id self = (Ok tt, self))
  /\ (exists self', clear_conversation id self = (Ok tt, self')
        /\ get_conversation_history self' id = []).
Proof.
  repeat split.
  - intros Hnone. unfold get_conversation_history. rewrite Hnone. reflexivity.
  - intros Hnever.
    rewrite (run_history lowercase settings ops _ id []) by apply init_history.
    rewrite log_nothing by exact Hnever. reflexivity.
  - intros Hnone. unfold clear_conversation, bind, get_self.
    rewrite Hnone. reflexivity.
  - unfold clear_conversation, bind, get_self, set_memory,
      get_conversation_history.
    destruct (conversation_memory self !! id) eqn:Hid.
    + eexists. split; [reflexivity|]. cbn [conversation_memory].
      rewrite lookup_delete_eq. reflexivity.
    + exists self. split; [reflexivity|]. rewrite Hid. reflexivity.
Qed.

Lemma unknown_and_cleared_are_empty_witness :
  get_conversation_history (AIService_init default_settings) (py "nobody") = []
  /\ get_conversation_history
       (run lowercase_sample default_settings
          [OpChat (answering_env (py "Noted.")) (py "Hello there") (Some (py "c1")) None None]
          (AIService_init default_settings)) (py "nobody") = []
  /\ clear_conversation (py "nobody") (AIService_init default_settings)
     = (Ok tt, AIService_init default_settings).
Proof.
  destruct (unknown_and_cleared_are_empty lowercase_sample default_settings
              (AIService_init default_settings) (py "nobody")
              [OpChat (answering_env (py "Noted.")) (py "Hello there") (Some (py "c1")) None None])
    as (Hget & Hnever & Hclear & _).
  split; [apply Hget; reflexivity|].
  split; [|apply Hclear; reflexivity].
  apply Hnever. constructor; [|constructor]. vm_compute. reflexivity.
Defined.

(** Clearing a conversation that has turns empties it. *)
Example clear_after_exchange :
  get_conversation_history
    (run lowercase_sample default_settings
       [OpChat (answering_env (py "Noted.")) (py "Hello there") (Some (py "c1")) None None;
        OpClear (py "c1")]
       (AIService_init default_settings)) (py "c1") = [].
Proof. vm_compute. reflexivity. Qed.

(** ** The orchestrator *)

(** On the input of the claim below the caller supplies the empty string as
    conversation identifier, and the result does not carry it. *)
Lemma empty_conversation_id_is_replaced :
  ~ (forall r self',
       chat lowercase_sample default_settings failing_env (py "Hello there") (Some [])
         None None (AIService_init default_settings) = (Ok r, self') ->
       conversation_id r = []).
Proof.
  intros Hclaim.
  destruct (chat_returns lowercase_sample default_settings failing_env (py "Hello there")
              (Some []) None None (AIService_init default_settings))
    as (r & self' & Hrun & Hid).
  specialize (Hclaim r self' Hrun). rewrite Hid in Hclaim. discriminate Hclaim.
Qed.

(** C8, amended.  [chat] returns a result on every input.  Its
    [conversation_id] is the string the caller supplied when that string is
    not empty, and the identifier drawn from [uuid.uuid4] for this call when
    the caller supplied none or supplied the empty string. *)
Theorem conversation_id_is_supplied_or_drawn (lowercase : str -> str) (settings : Settings) (env : Env)
    (message : str) (history : option (list ChatMessage))
    (context : option str) (self : AIService) :
  (forall c s, exists r self',
      chat lowercase settings env message (Some (c :: s)) history context self
      = (Ok r, self')
      /\ conversation_id r = (c :: s))
  /\ (exists r self',
        chat lowercase settings env message None history context self = (Ok r, self')
        /\ conversation_id r = uuid4 env)
  /\ (exists r self',
        chat lowercase settings env message (Some []) history context self
        = (Ok r, self')
        /\ conversation_id r = uuid4 env).
Proof.
  split; [intros c s|split]; apply chat_returns.
Qed.

(** C10.  When the topic gate lets the message through and the fact
    extractor has no answer, [chat] returns the cleaned text as [response]
    and its whitespace-split word count as [tokens_used], where the cleaned
    text is [_clean_response] applied to what [_generate_response] handed
    back for the prompt. *)
Theorem generated_reply_is_counted (lowercase : str -> str) (settings : Settings) (env : Env)
    (message : str) (cid : option str)
    (history : option (list ChatMessage)) (context : option str)
    (self : AIService) :
  _is_on_topic lowercase self message = (true, None) ->
  _get_direct_answer lowercase settings message = None ->
  exists generated cleaned r self',
    _generate_response env
      (_create_business_prompt settings self message (context_of history context))
      self = (Ok generated, self)
    /\ cleaned = _clean_response generated message
    /\ chat lowercase settings env message cid history context self = (Ok r, self')
    /\ response r = Some cleaned
    /\ tokens_used r = Z.of_nat (length (PyStr.split cleaned)).
Proof.
  intros Hgate Hnone.
  assert (Hpath : on_generation_path lowercase settings self message = true)
    by (unfold on_generation_path; rewrite Hgate, Hnone; reflexivity).
  do 4 eexists. split; [apply generate_response_run|]. split; [reflexivity|].
  split; [apply (chat_generated lowercase settings); exact Hpath|].
  split; reflexivity.
Qed.

Lemma generated_reply_is_counted_witness :
  exists generated cleaned r self',
    _generate_response (answering_env (py "ASSISTANT: Hi!  How can I help?"))
      (_create_business_prompt default_settings (AIService_init default_settings)
         (py "Hello there") (context_of None None))
      (AIService_init default_settings)
    = (Ok generated, AIService_init default_settings)
    /\ cleaned = _clean_response generated (py "Hello there")
    /\ chat lowercase_sample default_settings (answering_env (py "ASSISTANT: Hi!  How can I help?"))
         (py "Hello there") (Some (py "c1")) None None (AIService_init default_settings)
       = (Ok r, self')
    /\ response r = Some cleaned
    /\ tokens_used r = Z.of_nat (length (PyStr.split cleaned)).
Proof.
  apply (generated_reply_is_counted lowercase_sample default_settings
           (answering_env (py "ASSISTANT: Hi!  How can I help?")) (py "Hello there")
           (Some (py "c1")) None None (AIService_init default_settings)).
  - vm_compute. reflexivity.
  - vm_compute. reflexivity.
Defined.

Example generated_reply_sample :
  fst (chat lowercase_sample default_settings (answering_env (py "ASSISTANT: Hi!  How can I help?"))
         (py "Hello there") (Some (py "c1")) None None (AIService_init default_settings))
  = Ok {| response := Some (py "Hi!  How can I help?");
          conversation_id := py "c1";
          model_used := py "microsoft/DialoGPT-medium";
          tokens_used := 5 |}.
Proof. vm_compute. reflexivity. Qed.

(** On the input of the claim below the pipeline raises, and the result is
    not the one of the error handler: it carries the model name and a word
    count, and the exchange is stored. *)
Lemma pipeline_failure_is_not_error_handler :
  ~ (forall r self',
       chat lowercase_sample default_settings failing_env (py "Hello there") (Some (py "c1")) None None
         (AIService_init default_settings) = (Ok r, self') ->
       model_used r = py "error_handler"
       /\ tokens_used r = 0
       /\ conversation_memory self'
          = conversation_memory (AIService_init default_settings)).
Proof.
  intros Hclaim.
  pose proof (chat_generated lowercase_sample default_settings failing_env (py "Hello there")
                (Some (py "c1")) None None (AIService_init default_settings)) as Hrun.
  cbv zeta in Hrun. specialize (Hrun ltac:(vm_compute; reflexivity)).
  destruct (Hclaim _ _ Hrun) as (Hmodel & _). discriminate Hmodel.
Qed.

Example pipeline_failure_sample :
  let out := chat lowercase_sample default_settings failing_env (py "Hello there") (Some (py "c1")) None None
               (AIService_init default_settings) in
  fst out
  = Ok {| response :=
            Some (py "I apologize, but I'm having trouble processing your request right now.");
          conversation_id := py "c1";
          model_used := py "microsoft/DialoGPT-medium";
          tokens_used := 11 |}
  /\ get_conversation_history (snd out) (py "c1")
     = [user_turn (py "Hello there");
        assistant_turn
          (py "I apologize, but I'm having trouble processing your request right now.")].
Proof. vm_compute. split; reflexivity. Qed.

(** C3, amended.  [chat] returns a result on every input: no exception
    leaves it.  On the generation path the [try] body itself runs to its
    [return], so the handler of [chat] is not entered; a failure of the
    pipeline call is caught inside [_generate_response], which hands back its
    apology sentence, and [chat] treats that sentence as a generated text: it
    cleans it, returns it under the model name with its word count, and
    stores the exchange. *)
Theorem generation_failure_is_absorbed (lowercase : str -> str) (settings : Settings) (env : Env)
    (message : str) (cid : option str)
    (history : option (list ChatMessage)) (context : option str)
    (self : AIService) :
  (exists r self', chat lowercase settings env message cid history context self = (Ok r, self'))
  /\ (_is_on_topic lowercase self message = (true, None) ->
      _get_direct_answer lowercase settings message = None ->
      let id := resolve_conversation_id env cid in
      let prompt :=
        _create_business_prompt settings self message (context_of history context) in
      (exists r self',
          chat_try settings env message id history context self = (Ok r, self')
          /\ chat lowercase settings env message cid history context self = (Ok r, self'))
      /\ (pipeline env prompt = PipelineRaises ->
          let reply := _clean_response trouble_sentence message in
          _generate_response env prompt self = (Ok trouble_sentence, self)
          /\ chat lowercase settings env message cid history context self
             = (Ok {| response := Some reply;
                      conversation_id := id;
                      model_used := model_name self;
                      tokens_used := word_count reply |},
                remember self id [user_turn message; assistant_turn reply]))).
Proof.
  split.
  - destruct (chat_returns lowercase settings env message cid history context self)
      as (r & self' & Hrun & _). eauto.
  - intros Hgate Hnone id prompt.
    assert (Hpath : on_generation_path lowercase settings self message = true)
      by (unfold on_generation_path; rewrite Hgate, Hnone; reflexivity).
    split.
    + do 2 eexists. split; [apply chat_try_run|].
      apply (chat_generated lowercase settings). exact Hpath.
    + intros Hraises reply.
      assert (Hgen : generated_text env prompt = trouble_sentence)
        by (unfold generated_text; rewrite Hraises; reflexivity).
      split.
      * rewrite generate_response_run, Hgen. reflexivity.
      * rewrite (chat_generated lowercase settings) by exact Hpath.
        unfold reply_text. fold prompt. rewrite Hgen. reflexivity.
Qed.

Lemma generation_failure_is_absorbed_witness :
  chat lowercase_sample default_settings failing_env (py "Hello there") (Some (py "c1")) None None
    (AIService_init default_settings)
  = (Ok {| response := Some (_clean_response trouble_sentence (py "Hello there"));
           conversation_id := py "c1";
           model_used := py "microsoft/DialoGPT-medium";
           tokens_used := word_count (_clean_response trouble_sentence (py "Hello there")) |},
     remember (AIService_init default_settings) (py "c1")
       [user_turn (py "Hello there");
        assistant_turn (_clean_response trouble_sentence (py "Hello there"))]).
Proof.
  destruct (generation_failure_is_absorbed lowercase_sample default_settings failing_env
              (py "Hello there") (Some (py "c1")) None None (AIService_init default_settings))
    as (_ & Hpath).
  destruct (Hpath ltac:(vm_compute; reflexivity) ltac:(vm_compute; reflexivity))
    as (_ & Hraises).
  apply (Hraises eq_refl).
Defined.

(** ** The response cleaner *)

Lemma length_app (s t : str) :
  length (s ++ t) = (length s + length t)%nat.
Proof.
  induction s as [|c s IH]; [reflexivity|].
  change (S (length (s ++ t)) = S (length s + length t)).
  f_equal. exact IH.
Qed.

Lemma length_take (n : nat) (s : str) :
  length (take n s) = Nat.min n (length s).
Proof.
  revert s. induction n as [|n IH]; intros [|c s]; cbn; try reflexivity.
  f_equal. apply IH.
Qed.

Lemma truthy_length (s : str) :
  PyStr.truthy s = true <-> (0 < length s)%nat.
Proof. destruct s; cbn; split; intros H; try reflexivity; try lia; discriminate. Qed.

(** The last step of [_clean_response] keeps a non-empty text non-empty and
    within bounds. *)
Lemma truncate_bounds (text : str) :
  PyStr.truthy text = true ->
  let out := if 500 <? PyStr.len text
             then PyStr.slice_to text 500 ++ py "..." else text in
  out <> [] /\ (length out <= 503)%nat.
Proof.
  intros Htext out. apply truthy_length in Htext. subst out.
  unfold PyStr.len. destruct (500 <? Z.of_nat (length text)) eqn:Hlong.
  - apply Z.ltb_lt in Hlong. split.
    + intros Hempty. apply (f_equal length) in Hempty.
      rewrite length_app in Hempty. cbn in Hempty. lia.
    + rewrite length_app. unfold PyStr.slice_to. rewrite length_take.
      change (length (py "...")) with 3%nat.
      unfold PyStr.clamp. change (500 <? 0) with false. cbv iota. lia.
  - apply Z.ltb_ge in Hlong. split.
    + intros ->. cbn in Htext. lia.
    + lia.
Qed.

(** The cleaner trims, which the four steps of the specification do not. *)
Lemma cleaner_trims_beyond_the_steps :
  _clean_response (py " hi") (py "x") = py "hi"
  /\ clean_as_specified (py " hi") (py "x") = py " hi"
  /\ _clean_response (py " hi") (py "x") <> clean_as_specified (py " hi") (py "x").
Proof. vm_compute. repeat split; discriminate. Qed.

(** C7, amended.  [_clean_response] hands back a canned sentence at once
    when the raw text is empty.  Otherwise it deletes the occurrences of the
    original message and trims the text, tests the role labels "ASSISTANT:",
    "Assistant:", "AI:" and "Bot:" once each in this order, cutting a label
    found at the start and trimming again, puts a canned sentence in place of
    an empty text, and cuts the text after 500 characters, marking the cut
    with three dots.  Its result is never empty and never longer than 500
    characters plus the three dots. *)
Theorem clean_response_steps_and_bounds (raw original_message : str) :
  _clean_response raw original_message
  = match raw with
    | [] => rephrase_sentence
    | _ =>
        let text := PyStr.strip (PyStr.remove raw original_message) in
        let text := remove_prefix text (py "ASSISTANT:") in
        let text := remove_prefix text (py "Assistant:") in
        let text := remove_prefix text (py "AI:") in
        let text := remove_prefix text (py "Bot:") in
        let text := match text with
                    | [] => understand_sentence
                    | _ => text
                    end in
        if 500 <? PyStr.len text then PyStr.slice_to text 500 ++ py "..." else text
    end
  /\ _clean_response raw original_message <> []
  /\ (length (_clean_response raw original_message)
      <= 500 + length (py "..."))%nat.
Proof.
  split.
  - unfold _clean_response. destruct raw as [|c raw]; [reflexivity|].
    cbn [PyStr.truthy negb prefixes_to_remove fold_left].
    destruct (remove_prefix _ (py "Bot:")); reflexivity.
  - unfold _clean_response. destruct (PyStr.truthy raw); cbn [negb].
    + apply truncate_bounds.
      destruct (PyStr.truthy (fold_left _ _ _)) eqn:Hkept; cbn [negb];
        [exact Hkept|reflexivity].
    + split; [discriminate|]. cbn. lia.
Qed.

Example clean_response_samples :
  _clean_response (py "ASSISTANT: We open at 9.") (py "When do you open?") = py "We open at 9."
  /\ _clean_response (py "Hello there") (py "Hello there") = understand_sentence
  /\ _clean_response [] (py "Hello there") = rephrase_sentence
  /\ _clean_response (py "AI: ASSISTANT: hi") (py "x") = py "ASSISTANT: hi".
Proof. vm_compute. repeat split; reflexivity. Qed.

(** ** Searching and slicing *)

Lemma len_nonneg (s : str) : 0 <= PyStr.len s.
Proof. unfold PyStr.len. lia. Qed.

Lemma find_at_lower_bound (sub s : str) (pos : nat) :
  -1 <= PyStr.find_at sub s pos.
Proof.
  revert pos. induction s as [|c s IH]; intros pos; cbn [PyStr.find_at];
    destruct (PyStr.startswith _ sub); try lia. apply IH.
Qed.

Lemma find_from_zero (s sub : str) :
  PyStr.find s sub 0 = PyStr.find_at sub s 0.
Proof.
  unfold PyStr.find. change (0 <? 0) with false. cbv iota.
  pose proof (len_nonneg s) as Hlen.
  destruct (PyStr.len s <? 0) eqn:Hneg; [apply Z.ltb_lt in Hneg; lia|].
  reflexivity.
Qed.

(** A text that holds [sub] holds it at an index that is not negative. *)
Lemma contains_find (sub s : str) :
  PyStr.contains sub s = true -> 0 <= PyStr.find s sub 0.
Proof.
  unfold PyStr.contains. intros Hfound.
  apply negb_true_iff, Z.eqb_neq in Hfound.
  pose proof (find_at_lower_bound sub s 0) as Hlow.
  rewrite find_from_zero in *. lia.
Qed.

(** [find] gives the number of characters before the first occurrence. *)
Lemma find_at_before (sub s : str) (pos : nat) :
  PyStr.find_at sub s pos <> -1 ->
  PyStr.find_at sub s pos = Z.of_nat (pos + length (text_before sub s)).
Proof.
  revert pos. induction s as [|c s IH]; intros pos;
    cbn [PyStr.find_at text_before];
    destruct (PyStr.startswith _ sub); cbn [length]; intros Hfound.
  - f_equal. lia.
  - congruence.
  - f_equal. lia.
  - rewrite IH by exact Hfound. f_equal. lia.
Qed.

Lemma find_before (sub s : str) :
  PyStr.contains sub s = true ->
  Z.to_nat (PyStr.find s sub 0) = length (text_before sub s).
Proof.
  unfold PyStr.contains. intros Hfound.
  apply negb_true_iff, Z.eqb_neq in Hfound.
  rewrite find_from_zero in *. rewrite find_at_before by exact Hfound.
  rewrite Nat2Z.id. reflexivity.
Qed.

(** Searching from an index searches the rest of the text. *)
Lemma find_from_index (s sub : str) (n : nat) :
  (n <= length s)%nat ->
  PyStr.find s sub (Z.of_nat n) = PyStr.find_at sub (drop n s) n.
Proof.
  intros Hn. unfold PyStr.find, PyStr.len.
  destruct (Z.of_nat n <? 0) eqn:Hneg; [apply Z.ltb_lt in Hneg; lia|].
  destruct (Z.of_nat (length s) <? Z.of_nat n) eqn:Hshort;
    [apply Z.ltb_lt in Hshort; lia|].
  rewrite Nat2Z.id. reflexivity.
Qed.

(** The search for one character: where the text up to it ends. *)
Lemma find_at_char (c : N) (s : str) (pos : nat) :
  PyStr.find_at [c] s pos
  = if existsb (fun a => (a =? c)%N) s
    then Z.of_nat (pos + length (until c s))
    else -1.
Proof.
  revert pos. induction s as [|a s IH]; intros pos; [reflexivity|].
  cbn [PyStr.find_at PyStr.startswith existsb until].
  destruct (a =? c)%N; cbn [andb orb length].
  - f_equal. lia.
  - rewrite IH. destruct (existsb _ s); [f_equal; cbn [length]; lia|reflexivity].
Qed.

Lemma contains_char (c : N) (s : str) :
  PyStr.contains [c] s = existsb (fun a => (a =? c)%N) s.
Proof.
  unfold PyStr.contains. rewrite find_from_zero, find_at_char.
  destruct (existsb _ s); [|reflexivity].
  destruct (Z.of_nat (0 + length (until c s)) =? -1) eqn:Hneg; [|reflexivity].
  apply Z.eqb_eq in Hneg. lia.
Qed.

Lemma until_length (c : N) (s : str) : (length (until c s) <= length s)%nat.
Proof.
  induction s as [|a s IH]; [reflexivity|].
  cbn [until]. destruct (a =? c)%N; cbn [length]; lia.
Qed.

Lemma take_until (c : N) (s : str) : take (length (until c s)) s = until c s.
Proof.
  induction s as [|a s IH]; [reflexivity|].
  cbn [until]. destruct (a =? c)%N; [reflexivity|].
  cbn [length take]. f_equal. exact IH.
Qed.

Lemma until_all (c : N) (s : str) :
  existsb (fun a => (a =? c)%N) s = false -> until c s = s.
Proof.
  induction s as [|a s IH]; [reflexivity|].
  cbn [existsb until]. destruct (a =? c)%N; [discriminate|].
  cbn [orb]. intros Hrest. f_equal. apply IH, Hrest.
Qed.

(** A slice with bounds that are not negative, in terms of [take] and
    [drop]. *)
Lemma slice_nonneg (s : str) (a b : Z) :
  0 <= a -> 0 <= b ->
  PyStr.slice s a b = take (Z.to_nat b - Z.to_nat a) (drop (Z.to_nat a) s).
Proof.
  intros Ha Hb. unfold PyStr.slice, PyStr.clamp, PyStr.len.
  destruct (a <? 0) eqn:Hna; [apply Z.ltb_lt in Hna; lia|].
  destruct (b <? 0) eqn:Hnb; [apply Z.ltb_lt in Hnb; lia|].
  destruct (Z.le_gt_cases (Z.of_nat (length s)) a) as [Hlong|Hin].
  - rewrite !drop_ge by lia. rewrite !take_nil. reflexivity.
  - rewrite (Z.min_l a) by lia.
    destruct (Z.le_gt_cases b (Z.of_nat (length s))) as [Hbin|Hbout].
    + rewrite Z.min_l by lia. f_equal. lia.
    + rewrite Z.min_r by lia.
      rewrite !take_ge; [reflexivity| |]; rewrite length_drop; lia.
Qed.

Lemma slice_from_nonneg (s : str) (a : Z) :
  0 <= a -> PyStr.slice_from s a = drop (Z.to_nat a) s.
Proof.
  intros Ha. unfold PyStr.slice_from, PyStr.clamp, PyStr.len.
  destruct (a <? 0) eqn:Hna; [apply Z.ltb_lt in Hna; lia|].
  destruct (Z.le_gt_cases (Z.of_nat (length s)) a) as [Hlong|Hin].
  - rewrite Z.min_r by lia. rewrite !drop_ge by lia. reflexivity.
  - rewrite Z.min_l by lia. reflexivity.
Qed.

(** The search for one character from an index, when the rest of the text
    holds it. *)
Lemma find_char_from (s : str) (c : N) (start : Z) :
  0 <= start ->
  existsb (fun a => (a =? c)%N) (drop (Z.to_nat start) s) = true ->
  PyStr.find s [c] start
  = start + Z.of_nat (length (until c (drop (Z.to_nat start) s))).
Proof.
  intros Hstart Hfound.
  assert (Hin : (Z.to_nat start <= length s)%nat).
  { destruct (Nat.le_gt_cases (Z.to_nat start) (length s)) as [Hle|Hgt];
      [exact Hle|].
    rewrite drop_ge in Hfound by lia. discriminate Hfound. }
  rewrite <- (Z2Nat.id start) at 1 by exact Hstart.
  rewrite find_from_index by exact Hin.
  rewrite find_at_char, Hfound. lia.
Qed.

(** The slice the sentence branches of [_get_direct_answer] take, as a
    text: what follows the index up to the next full stop, without its first
    [skip] characters. *)
Lemma slice_to_dot (details : str) (start : Z) (skip : nat) :
  0 <= start ->
  PyStr.slice details (start + Z.of_nat skip) (dot_end details start)
  = drop skip (until dot (drop (Z.to_nat start) details)).
Proof.
  intros Hstart. unfold dot_end. change (py ".") with [dot].
  rewrite slice_from_nonneg by exact Hstart. rewrite contains_char.
  set (rest := drop (Z.to_nat start) details).
  assert (Hrest : drop (Z.to_nat (start + Z.of_nat skip)) details = drop skip rest).
  { unfold rest. rewrite drop_drop. f_equal. lia. }
  destruct (existsb (fun a => (a =? dot)%N) rest) eqn:Hfound.
  - rewrite find_char_from by assumption. fold rest.
    rewrite slice_nonneg by lia. rewrite Hrest.
    rewrite <- (take_until dot rest) at 2.
    rewrite skipn_firstn_comm. f_equal. lia.
  - rewrite (until_all dot rest Hfound).
    rewrite slice_nonneg by (pose proof (len_nonneg details); lia).
    rewrite Hrest. apply take_ge. unfold rest, PyStr.len.
    rewrite !length_drop. lia.
Qed.

(** The slice the contact branch of [_get_direct_answer] takes, as a text. *)
Lemma slice_to_stop (details : str) (c : N) (start : Z) :
  0 <= start ->
  PyStr.slice details start
    (if PyStr.contains [c] (PyStr.slice details start (start + 50))
     then PyStr.find details [c] start else start + 40)
  = if existsb (fun a => (a =? c)%N) (take 50 (drop (Z.to_nat start) details))
    then until c (drop (Z.to_nat start) details)
    else take 40 (drop (Z.to_nat start) details).
Proof.
  intros Hstart. set (rest := drop (Z.to_nat start) details).
  assert (Hwindow : PyStr.slice details start (start + 50) = take 50 rest).
  { rewrite slice_nonneg by lia. fold rest. f_equal. lia. }
  rewrite Hwindow, contains_char.
  destruct (existsb (fun a => (a =? c)%N) (take 50 rest)) eqn:Hfound.
  - assert (Hrest : existsb (fun a => (a =? c)%N) rest = true).
    { rewrite <- (take_drop 50 rest), existsb_app, Hfound. reflexivity. }
    rewrite find_char_from by assumption. fold rest.
    rewrite slice_nonneg by lia. fold rest.
    rewrite <- (take_until c rest) at 2. f_equal. lia.
  - rewrite slice_nonneg by lia. fold rest. f_equal. lia.
Qed.

(** ** The fact extractor *)

(** The topic names differ from one another. *)
Ltac topic_names :=
  repeat match goal with
         | |- context [PyStr.eqb (py ?a) (py ?b)] =>
             let v := eval vm_compute in (PyStr.eqb (py a) (py b)) in
             change (PyStr.eqb (py a) (py b)) with v
         end.

Section Extractor.

Variable lowercase : str -> str.
Variable settings : Settings.

(** The contact branch of [_get_direct_answer] gives the contact reply. *)
Lemma contact_answer_reply (details : str) :
  PyStr.contains (py "phone") (PyStr.lower lowercase details)
  || PyStr.contains (py "email") (PyStr.lower lowercase details) = true ->
  contact_answer lowercase (PyStr.lower lowercase details) details
  = contact_reply lowercase details.
Proof.
  intros _. unfold contact_answer, contact_reply, contact_piece, anchor_index.
  change (py ",") with [PyStr.comma]. change (py ".") with [dot].
  destruct (PyStr.contains (py "phone") (PyStr.lower lowercase details)) eqn:Hphone;
    destruct (PyStr.contains (py "email") (PyStr.lower lowercase details)) eqn:Hemail;
    cbn [app];
    rewrite ?slice_to_stop by (apply contains_find; assumption);
    rewrite ?(find_before _ _ Hphone), ?(find_before _ _ Hemail);
    reflexivity.
Qed.

(** One round of the loop of [_get_direct_answer], read off the table. *)
Lemma direct_answer_loop_step (message_lower : str)
    (item : str * list str) (rest : list (str * list str)) :
  direct_answer_loop lowercase settings message_lower
    (PyStr.lower lowercase (BUSINESS_DETAILS settings)) (item :: rest)
  = if answerable message_lower (PyStr.lower lowercase (BUSINESS_DETAILS settings)) item
    then Some (answer_for lowercase (fst item) (BUSINESS_DETAILS settings))
    else direct_answer_loop lowercase settings message_lower
           (PyStr.lower lowercase (BUSINESS_DETAILS settings)) rest.
Proof.
  destruct item as [topic keywords].
  unfold answerable, anchor_present, answer_for, sentence_from, anchor_index.
  cbn [direct_answer_loop fst snd].
  destruct (any_keyword message_lower keywords); cbn [andb]; [|reflexivity].
  repeat match goal with
         | |- context [PyStr.eqb topic ?name] =>
             destruct (str_eqb_spec topic name) as [->|?]
         end;
    topic_names; cbn [andb];
    try match goal with
        | |- context [if ?a || ?b then _ else _] =>
            destruct (a || b) eqn:Hcontact;
            [rewrite contact_answer_reply by exact Hcontact|]; reflexivity
        end;
    repeat match goal with
           | |- context [if PyStr.contains ?a ?b then _ else _] =>
               destruct (PyStr.contains a b) eqn:?
           end;
    try reflexivity;
    repeat match goal with
           | |- context [PyStr.slice ?d (?s + 9) (dot_end ?d ?s)] =>
               change (s + 9) with (s + Z.of_nat 9);
               rewrite (slice_to_dot d s 9) by (apply contains_find; assumption)
           | |- context [PyStr.slice ?d ?s (dot_end ?d ?s)] =>
               replace (PyStr.slice d s (dot_end d s))
                 with (PyStr.slice d (s + Z.of_nat 0) (dot_end d s))
                 by (rewrite Z.add_0_r; reflexivity);
               rewrite (slice_to_dot d s 0) by (apply contains_find; assumption)
           end;
    match goal with
    | Hfound : PyStr.contains _ _ = true |- _ => rewrite (find_before _ _ Hfound)
    end;
    reflexivity.
Qed.

End Extractor.

Lemma first_such {A} (f : A -> bool) (l : list A) :
  (exists x, In x l /\ f x = true) ->
  exists before first after,
    l = before ++ first :: after
    /\ Forall (fun y => f y = false) before
    /\ f first = true.
Proof.
  induction l as [|y l IH]; intros (x & Hin & Hx); [destruct Hin|].
  destruct (f y) eqn:Hy.
  - exists [], y, l. repeat split; [constructor|exact Hy].
  - destruct Hin as [->|Hin]; [congruence|].
    destruct IH as (before & first & after & -> & Hbefore & Hfirst); [eauto|].
    exists (y :: before), first, after.
    repeat split; [constructor; assumption|assumption].
Qed.

Section ExtractorScan.

Variable lowercase : str -> str.
Variable settings : Settings.

Lemma direct_answer_loop_first (message_lower : str)
    (before after : list (str * list str)) (item : str * list str) :
  Forall (fun earlier =>
            answerable message_lower (PyStr.lower lowercase (BUSINESS_DETAILS settings)) earlier
            = false)
    before ->
  answerable message_lower (PyStr.lower lowercase (BUSINESS_DETAILS settings)) item = true ->
  direct_answer_loop lowercase settings message_lower (PyStr.lower lowercase (BUSINESS_DETAILS settings))
    (before ++ item :: after)
  = Some (answer_for lowercase (fst item) (BUSINESS_DETAILS settings)).
Proof.
  intros Hbefore Hitem.
  induction Hbefore as [|earlier before Hearlier _ IH].
  - cbn [app]. rewrite direct_answer_loop_step.
    rewrite Hitem. reflexivity.
  - change ((earlier :: before) ++ item :: after)
      with (earlier :: (before ++ item :: after)).
    rewrite direct_answer_loop_step.
    rewrite Hearlier. exact IH.
Qed.

Lemma direct_answer_loop_none (message_lower : str)
    (items : list (str * list str)) :
  direct_answer_loop lowercase settings message_lower
    (PyStr.lower lowercase (BUSINESS_DETAILS settings)) items = None
  <-> Forall (fun item =>
                answerable message_lower (PyStr.lower lowercase (BUSINESS_DETAILS settings)) item
                = false)
        items.
Proof.
  induction items as [|item items IH].
  - split; [constructor|reflexivity].
  - rewrite direct_answer_loop_step.
    destruct (answerable message_lower (PyStr.lower lowercase (BUSINESS_DETAILS settings)) item) eqn:Hitem.
    + split; [discriminate|]. intros Hall.
      apply Forall_cons in Hall as [Hfalse _]. congruence.
    + rewrite IH. split.
      * intros Hall. constructor; assumption.
      * intros Hall. apply Forall_cons in Hall as [_ Hall]. exact Hall.
Qed.

(** The replies of the seven topics start with fixed words. *)
Lemma answer_for_truthy (item : str * list str) :
  In item patterns ->
  PyStr.truthy (answer_for lowercase (fst item) (BUSINESS_DETAILS settings)) = true.
Proof.
  intros Hin. cbn [patterns In] in Hin.
  repeat (destruct Hin as [<-|Hin]; [reflexivity|]). destruct Hin.
Qed.

(** A message for which some topic has a keyword and its anchor gets an
    answer, and the answer is not empty. *)
Lemma direct_answer_found (message : str) :
  (exists item, In item patterns
     /\ answerable (PyStr.lower lowercase message) (PyStr.lower lowercase (BUSINESS_DETAILS settings)) item = true) ->
  exists answer,
    _get_direct_answer lowercase settings message = Some answer
    /\ PyStr.truthy answer = true.
Proof.
  intros Hsome.
  pose proof Hsome as (before & first & after & Hsplit & Hbefore & Hfirst)%first_such.
  exists (answer_for lowercase (fst first) (BUSINESS_DETAILS settings)). split.
  - unfold _get_direct_answer. rewrite Hsplit.
    apply direct_answer_loop_first; assumption.
  - apply answer_for_truthy. rewrite Hsplit.
    apply in_or_app. right. left. reflexivity.
Qed.

End ExtractorScan.


(** The location topic leaves its anchor out of the reply. *)
Example location_reply_drops_the_anchor :
  let details := py "Location: 12 Main St. Open daily." in
  _get_direct_answer lowercase_sample (settings_with_details details)
    (py "Where are you located?")
  = Some (py "We're located at: 12 Main St. Feel free to visit us!")
  /\ sentence_from lowercase_sample details (py "location:") 0
     = py "Location: 12 Main St".
Proof. vm_compute. split; reflexivity. Qed.

(** The contact pieces are cut by their windows: a comma beyond the first
    fifty characters from "phone" is not looked for, and the piece is the
    forty characters from there. *)
Example contact_window_sample :
  let details :=
    py "Phone 555-1234 or 555-9876 weekdays between nine and five, not Sundays." in
  _get_direct_answer lowercase_sample (settings_with_details details) (py "phone")
  = Some (py "You can reach us at: Phone 555-1234 or 555-9876 weekdays betw. We're here to help!").
Proof. vm_compute. reflexivity. Qed.

(** The index is taken in the lower-cased details and used in the details
    themselves.  Lower-casing the capital I with a dot above (code point 304)
    gives two characters, so behind it the anchor stands one place further in
    the lower-cased details, and the reply starts one character late. *)
Example longer_lowercase_shifts_the_cut :
  let details := [304%N] ++ py " Hours: 9am-6pm Mon-Fri." in
  PyStr.lower lowercase_sample details
  = [105%N; 775%N] ++ py " hours: 9am-6pm mon-fri."
  /\ _get_direct_answer lowercase_sample (settings_with_details details)
       (py "What are your hours?")
     = Some (py "Our ours: 9am-6pm Mon-Fri. Is there anything else you'd like to know?").
Proof. vm_compute. split; reflexivity. Qed.



Example fall_through_sample :
  _get_direct_answer lowercase_sample
    (settings_with_details (py "Location: 12 Main St. Open daily."))
    (py "When are you open, and what is your address?")
  = Some (py "We're located at: 12 Main St. Feel free to visit us!")
  /\ _get_direct_answer lowercase_sample default_settings (py "When are you open?") = None.
Proof. vm_compute. split; reflexivity. Qed.

(** On the input below the message has a keyword of hours and the anchor of
    hours is in the details, yet the topic gate answers: the message also
    holds a restricted phrase. *)
Lemma restricted_phrase_beats_direct_answer :
  let settings := settings_with_details (py "Hours: 9am-6pm Mon-Fri.") in
  let message := py "What are the hours for medical advice?" in
  In ((py "hours"), [py "hours"; py "open"; py "close"; py "when are you open"; py "what time"])
    patterns
  /\ any_keyword (PyStr.lower lowercase_sample message)
       [py "hours"; py "open"; py "close"; py "when are you open"; py "what time"] = true
  /\ PyStr.contains (py "hours:") (PyStr.lower lowercase_sample (BUSINESS_DETAILS settings)) = true
  /\ ~ (forall r self',
          chat lowercase_sample settings failing_env message None None None (AIService_init settings)
          = (Ok r, self') ->
          model_used r = py "business_knowledge").
Proof.
  cbv zeta. split; [left; reflexivity|].
  split; [vm_compute; reflexivity|]. split; [vm_compute; reflexivity|].
  intros Hclaim.
  assert (Hgate :
            _is_on_topic lowercase_sample
              (AIService_init (settings_with_details (py "Hours: 9am-6pm Mon-Fri.")))
              (py "What are the hours for medical advice?")
            = (false,
               Some (py "I can't provide medical advice. Let me help you with customer service related questions instead.")))
    by (vm_compute; reflexivity).
  specialize (Hclaim _ _ (chat_rejected _ _ _ _ _ _ _ _ _ Hgate)).
  discriminate Hclaim.
Qed.

(** C4, amended.  Let the topic gate pass the message (it holds no
    restricted phrase).  If some topic of the keyword table has a keyword in
    the lower-cased message and its anchor in the lower-cased details, then
    [chat] returns the answer of the fact extractor with
    [model_used = "business_knowledge"] and [tokens_used] equal to the
    whitespace-split word count of that answer, and [self], with the memory
    of every conversation, is left as it was. *)
Theorem direct_answer_is_business_knowledge (lowercase : str -> str) (settings : Settings) (env : Env)
    (message : str) (cid : option str)
    (history : option (list ChatMessage)) (context : option str)
    (self : AIService) :
  _is_on_topic lowercase self message = (true, None) ->
  (exists topic keywords,
      In (topic, keywords) patterns
      /\ any_keyword (PyStr.lower lowercase message) keywords = true
      /\ anchor_present topic (PyStr.lower lowercase (BUSINESS_DETAILS settings)) = true) ->
  exists answer,
    _get_direct_answer lowercase settings message = Some answer
    /\ chat lowercase settings env message cid history context self
       = (Ok {| response := Some answer;
                conversation_id := resolve_conversation_id env cid;
                model_used := py "business_knowledge";
                tokens_used := Z.of_nat (length (PyStr.split answer)) |}, self).
Proof.
  intros Hgate (topic & keywords & Hin & Hkeyword & Hanchor).
  destruct (direct_answer_found lowercase settings message) as (answer & Hanswer & Htruthy).
  { exists (topic, keywords). split; [exact Hin|].
    unfold answerable. cbn [fst snd]. rewrite Hkeyword, Hanchor. reflexivity. }
  exists answer. split; [exact Hanswer|].
  apply chat_direct; [rewrite Hgate; reflexivity|exact Hanswer|exact Htruthy].
Qed.

Lemma direct_answer_is_business_knowledge_witness :
  let settings := settings_with_details (py "Hours: 9am-6pm Mon-Fri.") in
  exists answer,
    _get_direct_answer lowercase_sample settings (py "What are your business hours?") = Some answer
    /\ chat lowercase_sample settings failing_env (py "What are your business hours?") (Some (py "c1"))
         None None (AIService_init settings)
       = (Ok {| response := Some answer;
                conversation_id := resolve_conversation_id failing_env (Some (py "c1"));
                model_used := py "business_knowledge";
                tokens_used := Z.of_nat (length (PyStr.split answer)) |},
          AIService_init settings).
Proof.
  apply (direct_answer_is_business_knowledge lowercase_sample
           (settings_with_details (py "Hours: 9am-6pm Mon-Fri.")) failing_env
           (py "What are your business hours?") (Some (py "c1")) None None
           (AIService_init (settings_with_details (py "Hours: 9am-6pm Mon-Fri.")))).
  - vm_compute. reflexivity.
  - exists (py "hours"), [py "hours"; py "open"; py "close"; py "when are you open"; py "what time"].
    split; [left; reflexivity|]. split; vm_compute; reflexivity.
Defined.

(** ** The hours scenario *)




(** * Further properties of the service *)

(** ** Trimming *)

Lemma lstrip_head (s : str) :
  PyStr.lstrip s = []
  \/ exists c rest, PyStr.lstrip s = (c :: rest) /\ PyStr.isspace c = false.
Proof.
  induction s as [|c s IH]; [left; reflexivity|].
  cbn [PyStr.lstrip]. destruct (PyStr.isspace c) eqn:Hc; [exact IH|].
  right. exists c, s. split; [reflexivity|exact Hc].
Qed.

Lemma rstrip_idempotent (s : str) :
  PyStr.rstrip (PyStr.rstrip s) = PyStr.rstrip s.
Proof.
  induction s as [|c s IH]; [reflexivity|].
  cbn [PyStr.rstrip]. destruct (PyStr.rstrip s) as [|d r] eqn:Hr.
  - destruct (PyStr.isspace c) eqn:Hc; [reflexivity|].
    cbn [PyStr.rstrip]. rewrite Hc. reflexivity.
  - change (PyStr.rstrip (c :: (d :: r)))
      with (match PyStr.rstrip (d :: r) with
            | [] =>
                if PyStr.isspace c then [] else [c]
            | (_ :: _) as kept => (c :: kept)
            end).
    rewrite IH. reflexivity.
Qed.

Lemma rstrip_keeps_head (c : N) (s : str) :
  PyStr.isspace c = false ->
  exists rest, PyStr.rstrip (c :: s) = (c :: rest).
Proof.
  intros Hc. cbn [PyStr.rstrip]. destruct (PyStr.rstrip s) as [|d r].
  - rewrite Hc. eauto.
  - eauto.
Qed.

(** Trimming a trimmed text changes nothing. *)
Lemma strip_idempotent (s : str) :
  PyStr.strip (PyStr.strip s) = PyStr.strip s.
Proof.
  unfold PyStr.strip.
  destruct (lstrip_head s) as [Hempty|(c & rest & Hhead & Hc)].
  - rewrite Hempty. reflexivity.
  - rewrite Hhead.
    destruct (rstrip_keeps_head c rest Hc) as (kept & Hkept).
    rewrite Hkept. cbn [PyStr.lstrip]. rewrite Hc, <- Hkept.
    apply rstrip_idempotent.
Qed.

Lemma length_lstrip (s : str) :
  (length (PyStr.lstrip s) <= length s)%nat.
Proof.
  induction s as [|c s IH]; [reflexivity|].
  cbn [PyStr.lstrip]. destruct (PyStr.isspace c); cbn [length]; lia.
Qed.

Lemma length_rstrip (s : str) :
  (length (PyStr.rstrip s) <= length s)%nat.
Proof.
  induction s as [|c s IH]; [reflexivity|].
  cbn [PyStr.rstrip]. destruct (PyStr.rstrip s) as [|d r].
  - destruct (PyStr.isspace c); cbn [length]; lia.
  - cbn [length] in *. lia.
Qed.

(** A trimmed text that is not empty starts with a character that is not a
    space. *)
Lemma trimmed_head (c : N) (s : str) :
  PyStr.strip (c :: s) = (c :: s) -> PyStr.isspace c = false.
Proof.
  intros Htrim. destruct (PyStr.isspace c) eqn:Hc; [|reflexivity].
  apply (f_equal length) in Htrim.
  unfold PyStr.strip in Htrim. cbn [PyStr.lstrip] in Htrim. rewrite Hc in Htrim.
  pose proof (length_rstrip (PyStr.lstrip s)) as Hr.
  pose proof (length_lstrip s) as Hl.
  cbn [length] in Htrim. lia.
Qed.

(** ** The configuration *)

Lemma length_split_on_aux (sep : N) (cur s : str) :
  length (PyStr.split_on_aux sep cur s) = S (count_char sep s).
Proof.
  revert cur. induction s as [|c s IH]; intros cur; [reflexivity|].
  cbn [PyStr.split_on_aux count_char].
  destruct ((c =? sep)%N); cbn [length]; rewrite IH; reflexivity.
Qed.

(** X3.  [_load_business_config] cuts each topic setting at its commas: a
    setting with n commas gives n + 1 topics, so the lists are never empty,
    and every topic is trimmed. *)
Theorem configured_topics_are_cut_and_trimmed (settings : Settings) :
  let cfg := _load_business_config settings in
  length (allowed_topics cfg) = S (count_char PyStr.comma (ALLOWED_TOPICS settings))
  /\ length (restricted_topics cfg)
     = S (count_char PyStr.comma (RESTRICTED_TOPICS settings))
  /\ Forall (fun topic => PyStr.strip topic = topic) (allowed_topics cfg)
  /\ Forall (fun topic => PyStr.strip topic = topic) (restricted_topics cfg).
Proof.
  cbv zeta. unfold _load_business_config. cbn [allowed_topics restricted_topics].
  rewrite !length_map. unfold PyStr.split_on. rewrite !length_split_on_aux.
  repeat split; apply Forall_map, Forall_forall; intros topic _;
    apply strip_idempotent.
Qed.

Example default_topics :
  restricted_topics (_load_business_config default_settings)
  = [py "medical advice"; py "legal advice"; py "financial advice"; py "personal information"]
  /\ allowed_topics
       (_load_business_config (settings_with_details []))
     = [py "general questions"; py "product information"; py "pricing"; py "support"].
Proof. vm_compute. split; reflexivity. Qed.

(** ** The topic gate, both ways *)

Lemma is_on_topic_loop_cases (lowercase : str -> str) (cfg : BusinessConfig) (message_lower : str)
    (topics : list str) :
  (Forall (fun t => PyStr.contains (PyStr.lower lowercase t) message_lower = false) topics
   /\ is_on_topic_loop lowercase cfg message_lower topics = (true, None))
  \/ (exists phrase,
        In phrase topics
        /\ PyStr.contains (PyStr.lower lowercase phrase) message_lower = true
        /\ is_on_topic_loop lowercase cfg message_lower topics
           = (false, Some (redirect cfg phrase))).
Proof.
  induction topics as [|t topics IH].
  - left. split; [constructor|reflexivity].
  - cbn [is_on_topic_loop].
    destruct (PyStr.contains (PyStr.lower lowercase t) message_lower) eqn:Ht.
    + right. exists t. repeat split; [left; reflexivity|exact Ht].
    + destruct IH as [(Hall & Hloop)|(phrase & Hin & Hsub & Hloop)].
      * left. split; [constructor; assumption|exact Hloop].
      * right. exists phrase. repeat split; [right; exact Hin|exact Hsub|exact Hloop].
Qed.

(** X1.  The topic gate lets a message through exactly when none of the
    restricted topics, lower-cased, occurs in the lower-cased message; and
    when it does not let it through, it hands back the redirect sentence of a
    restricted topic that occurs in the message. *)
Theorem gate_passes_exactly_clean_messages (lowercase : str -> str) (self : AIService) (message : str) :
  (_is_on_topic lowercase self message = (true, None)
   <-> Forall (fun t => PyStr.contains (PyStr.lower lowercase t) (PyStr.lower lowercase message) = false)
         (restricted_topics (business_config self)))
  /\ (_is_on_topic lowercase self message = (true, None)
      \/ exists phrase,
           In phrase (restricted_topics (business_config self))
           /\ PyStr.contains (PyStr.lower lowercase phrase) (PyStr.lower lowercase message) = true
           /\ _is_on_topic lowercase self message
              = (false, Some (redirect (business_config self) phrase))).
Proof.
  unfold _is_on_topic.
  destruct (is_on_topic_loop_cases lowercase (business_config self) (PyStr.lower lowercase message)
              (restricted_topics (business_config self)))
    as [(Hall & Hloop)|(phrase & Hin & Hsub & Hloop)].
  - split; [|left; exact Hloop]. split; [intros _; exact Hall|intros _; exact Hloop].
  - split; [|right; eauto]. split.
    + rewrite Hloop. discriminate.
    + intros Hall. rewrite Forall_forall in Hall.
      rewrite (Hall phrase) in Hsub; [discriminate|].
      apply list_elem_of_In. exact Hin.
Qed.

Lemma contains_empty (s : str) : PyStr.contains [] s = true.
Proof.
  unfold PyStr.contains. rewrite find_from_zero.
  destruct s; reflexivity.
Qed.

(** X2.  An empty restricted topic, as an empty [RESTRICTED_TOPICS] setting
    or a trailing comma in it leaves one, occurs in every message: the
    service then answers every message with a redirect sentence, whatever
    the message, and never reaches the fact extractor or the model. *)
Theorem empty_restricted_topic_rejects_everything (lowercase : str -> str) (settings : Settings) (env : Env)
    (message : str) (cid : option str)
    (history : option (list ChatMessage)) (context : option str)
    (self : AIService) :
  In [] (restricted_topics (business_config self)) ->
  exists phrase,
    In phrase (restricted_topics (business_config self))
    /\ chat lowercase settings env message cid history context self
       = (Ok {| response := Some (redirect (business_config self) phrase);
                conversation_id := resolve_conversation_id env cid;
                model_used := py "business_rules";
                tokens_used := 0 |}, self).
Proof.
  intros Hempty.
  destruct (is_on_topic_loop_cases lowercase (business_config self) (PyStr.lower lowercase message)
              (restricted_topics (business_config self)))
    as [(Hall & _)|(phrase & Hin & _ & Hloop)].
  - rewrite Forall_forall in Hall.
    specialize (Hall [] ltac:(apply list_elem_of_In; exact Hempty)).
    cbn [PyStr.lower] in Hall. rewrite contains_empty in Hall. discriminate.
  - exists phrase. split; [exact Hin|]. apply chat_rejected. exact Hloop.
Qed.

Lemma empty_restricted_topic_rejects_everything_witness :
  let settings :=
    {| MODEL_NAME := py "microsoft/DialoGPT-medium";
       BUSINESS_NAME := py "Demo Business";
       BUSINESS_TYPE := py "customer service";
       BUSINESS_DETAILS := py "Hours: 9am-6pm Mon-Fri.";
       ALLOWED_TOPICS := py "pricing,support";
       RESTRICTED_TOPICS := py "medical advice, " |} in
  exists phrase,
    In phrase (restricted_topics (business_config (AIService_init settings)))
    /\ chat lowercase_sample settings failing_env (py "What are your business hours?") None None None
         (AIService_init settings)
       = (Ok {| response :=
                  Some (redirect (business_config (AIService_init settings)) phrase);
                conversation_id := resolve_conversation_id failing_env None;
                model_used := py "business_rules";
                tokens_used := 0 |}, AIService_init settings).
Proof.
  cbv zeta.
  apply empty_restricted_topic_rejects_everything.
  vm_compute. right. left. reflexivity.
Defined.

(** ** The context builder *)

Lemma lastn_app_exact {A} (old recent : list A) :
  lastn (length recent) (old ++ recent) = recent.
Proof.
  unfold lastn. rewrite List.length_app.
  replace (length old + length recent - length recent)%nat with (length old) by lia.
  apply list.drop_app_length.
Qed.

Lemma build_context_window (old recent : list ChatMessage) (n : nat) :
  (0 < n)%nat -> length recent = n ->
  _build_conversation_context (old ++ recent) n
  = _build_conversation_context recent n.
Proof.
  intros Hn Hlen. destruct n as [|k]; [lia|].
  destruct recent as [|m recent]; [discriminate Hlen|].
  unfold _build_conversation_context.
  destruct (old ++ m :: recent) as [|m' all] eqn:Hall.
  - destruct old; discriminate Hall.
  - rewrite <- Hall, <- Hlen, lastn_app_exact.
    rewrite lastn_all by reflexivity. reflexivity.
Qed.

Section ChatInputs.

Variable lowercase : str -> str.
Variable settings : Settings.

(** [chat] reads the history of the request through the context string only. *)
Lemma chat_reads_context (env : Env) (message : str) (cid : option str)
    (h1 h2 : option (list ChatMessage)) (context : option str)
    (self : AIService) :
  context_of h1 context = context_of h2 context ->
  chat lowercase settings env message cid h1 context self
  = chat lowercase settings env message cid h2 context self.
Proof.
  intros Hcontext.
  destruct (on_generation_path lowercase settings self message) eqn:Hpath.
  - rewrite !(chat_generated lowercase settings) by exact Hpath.
    unfold reply_text. rewrite Hcontext. reflexivity.
  - unfold on_generation_path in Hpath.
    destruct (_is_on_topic lowercase self message) as [ok redirect_message] eqn:Hgate.
    destruct ok.
    + cbn [fst andb] in Hpath.
      destruct (_get_direct_answer lowercase settings message) as [[|c answer]|] eqn:Hanswer;
        try discriminate.
      rewrite !(chat_direct lowercase settings _ _ _ _ _ _ (c :: answer));
        try reflexivity; try exact Hanswer; rewrite Hgate; reflexivity.
    + rewrite !(chat_rejected lowercase settings _ _ _ _ _ _ redirect_message) by exact Hgate.
      reflexivity.
Qed.

End ChatInputs.

(** X4.  Only the last three messages of the history sent with a request
    count: [_build_conversation_context] with its default window gives the
    same text for a history and for its last three messages, and so [chat]
    gives the same result and leaves the same state. *)
Theorem only_last_three_messages_count (lowercase : str -> str) (settings : Settings) (env : Env)
    (message : str) (cid : option str) (old recent : list ChatMessage)
    (context : option str) (self : AIService) :
  length recent = 3%nat ->
  _build_conversation_context (old ++ recent) 3
  = _build_conversation_context recent 3
  /\ chat lowercase settings env message cid (Some (old ++ recent)) context self
     = chat lowercase settings env message cid (Some recent) context self.
Proof.
  intros Hlen.
  assert (Hwindow : _build_conversation_context (old ++ recent) 3
                    = _build_conversation_context recent 3)
    by (apply build_context_window; [lia|exact Hlen]).
  split; [exact Hwindow|].
  apply chat_reads_context. unfold context_of.
  destruct recent as [|m recent]; [discriminate Hlen|].
  destruct (old ++ m :: recent) as [|m' all] eqn:Hall;
    [destruct old; discriminate Hall|].
  rewrite Hwindow. reflexivity.
Qed.

Lemma only_last_three_messages_count_witness :
  let recent := [user_turn (py "Do you ship abroad?"); assistant_turn (py "Yes, we do.");
                 user_turn (py "How long does it take?")] in
  let old := [user_turn (py "Hello"); assistant_turn (py "Hi! How can I help?")] in
  _build_conversation_context (old ++ recent) 3
  = _build_conversation_context recent 3
  /\ chat lowercase_sample default_settings (answering_env (py "About a week.")) (py "And to Norway?")
       (Some (py "c1")) (Some (old ++ recent)) None (AIService_init default_settings)
     = chat lowercase_sample default_settings (answering_env (py "About a week.")) (py "And to Norway?")
         (Some (py "c1")) (Some recent) None (AIService_init default_settings).
Proof.
  cbv zeta. apply only_last_three_messages_count. reflexivity.
Defined.

(** The context of a request holds every message of a short history. *)
Example short_history_in_prompt :
  context_of (Some [user_turn (py "Hello")]) (Some (py "VIP customer"))
  = py "Human: Hello" ++ PyStr.nl ++ py "Additional Context: VIP customer".
Proof. vm_compute. reflexivity. Qed.

Example context_sample :
  _build_conversation_context
    [user_turn (py "Hello"); assistant_turn (py "Hi! How can I help?");
     user_turn (py "Do you ship abroad?"); assistant_turn (py "Yes, we do.")] 3
  = py "Assistant: Hi! How can I help?" ++ PyStr.nl
      ++ py "Human: Do you ship abroad?" ++ PyStr.nl
      ++ py "Assistant: Yes, we do.".
Proof. vm_compute. reflexivity. Qed.

(** ** The generator *)

(** X5.  [_generate_response] returns on every outcome of the pipeline call
    and leaves [self] as it was: the text of the first candidate when there
    is one, the others being ignored; a sentence asking to rephrase when the
    pipeline returns no candidate; its apology sentence when the call
    raises. *)
Theorem generate_response_always_returns (env : Env) (prompt : str)
    (self : AIService) :
  exists text,
    _generate_response env prompt self = (Ok text, self)
    /\ match pipeline env prompt with
       | PipelineRaises => text = trouble_sentence
       | PipelineReturns [] => text = rephrase_sentence
       | PipelineReturns (first :: _) => text = first
       end.
Proof.
  exists (generated_text env prompt). split; [apply generate_response_run|].
  unfold generated_text. destruct (pipeline env prompt) as [|[|first rest]];
    reflexivity.
Qed.

(** ** The cleaner, further *)

Lemma remove_prefix_trimmed (text prefix : str) :
  PyStr.strip text = text ->
  PyStr.strip (remove_prefix text prefix) = remove_prefix text prefix.
Proof.
  intros Htext. unfold remove_prefix.
  destruct (PyStr.startswith text prefix); [apply strip_idempotent|exact Htext].
Qed.

Lemma remove_prefixes_trimmed (prefixes : list str) (text : str) :
  PyStr.strip text = text ->
  PyStr.strip (fold_left remove_prefix prefixes text)
  = fold_left remove_prefix prefixes text.
Proof.
  revert text. induction prefixes as [|prefix prefixes IH]; intros text Htext;
    [exact Htext|].
  cbn [fold_left]. apply IH, remove_prefix_trimmed, Htext.
Qed.

Lemma rstrip_before_dots (s : str) :
  PyStr.rstrip (s ++ py "...") = s ++ py "...".
Proof.
  induction s as [|c s IH]; [vm_compute; reflexivity|].
  change ((c :: s) ++ py "...") with (c :: (s ++ py "...")).
  cbn [PyStr.rstrip]. rewrite IH.
  destruct (s ++ py "...") as [|d r] eqn:Hs; [|reflexivity].
  apply (f_equal length) in Hs. rewrite length_app in Hs.
  cbn in Hs. lia.
Qed.

Lemma lstrip_kept (c : N) (s : str) :
  PyStr.isspace c = false -> PyStr.lstrip (c :: s) = (c :: s).
Proof. intros Hc. cbn [PyStr.lstrip]. rewrite Hc. reflexivity. Qed.

Lemma take_cons (n : nat) (c : N) (s : str) :
  take (S n) (c :: s) = c :: (take n s).
Proof. reflexivity. Qed.

(** The last step of [_clean_response] keeps a trimmed text trimmed. *)
Lemma truncate_trimmed (text : str) :
  PyStr.strip text = text ->
  let out := if 500 <? PyStr.len text
             then PyStr.slice_to text 500 ++ py "..." else text in
  PyStr.strip out = out.
Proof.
  intros Htext out. subst out.
  destruct (500 <? PyStr.len text) eqn:Hlong; [|exact Htext].
  destruct text as [|c text]; [discriminate Hlong|].
  pose proof (trimmed_head c text Htext) as Hc.
  unfold PyStr.slice_to, PyStr.clamp. change (500 <? 0) with false. cbv iota.
  apply Z.ltb_lt in Hlong. rewrite Z.min_l by lia.
  assert (Hn : Z.to_nat 500 = S 499) by reflexivity.
  rewrite Hn. generalize 499%nat. intros n. rewrite take_cons.
  change ((c :: take n text) ++ py "...")
    with (c :: (take n text ++ py "...")).
  unfold PyStr.strip. rewrite lstrip_kept by exact Hc.
  change (PyStr.rstrip (c :: (take n text ++ py "...")))
    with (match PyStr.rstrip (take n text ++ py "...") with
          | [] =>
              if PyStr.isspace c then [] else [c]
          | (_ :: _) as kept => (c :: kept)
          end).
  rewrite rstrip_before_dots.
  destruct (take n text ++ py "...") as [|d r] eqn:Hs; [|reflexivity].
  apply (f_equal length) in Hs. rewrite length_app in Hs.
  cbn in Hs. lia.
Qed.

(** X6.  The text [_clean_response] returns never starts or ends with white
    space: trimming it changes nothing. *)
Theorem clean_response_is_trimmed (raw original_message : str) :
  PyStr.strip (_clean_response raw original_message)
  = _clean_response raw original_message.
Proof.
  unfold _clean_response. destruct (PyStr.truthy raw); cbn [negb];
    [|vm_compute; reflexivity].
  apply truncate_trimmed.
  destruct (PyStr.truthy (fold_left _ _ _)) eqn:Hkept; cbn [negb];
    [|vm_compute; reflexivity].
  apply remove_prefixes_trimmed, strip_idempotent.
Qed.

(** The text [_clean_response] returns is not empty. *)
Lemma clean_response_truthy (raw original_message : str) :
  PyStr.truthy (_clean_response raw original_message) = true.
Proof.
  unfold _clean_response. destruct (PyStr.truthy raw); cbn [negb];
    [|reflexivity].
  match goal with
  | |- PyStr.truthy (if _ then _ else ?text) = true =>
      destruct (truncate_bounds text) as (Hnonempty & _)
  end.
  - destruct (PyStr.truthy (fold_left _ _ _)) eqn:Hkept; cbn [negb];
      [exact Hkept|reflexivity].
  - cbv zeta in Hnonempty.
    match goal with
    | |- PyStr.truthy ?out = true => destruct out; [congruence|reflexivity]
    end.
Qed.

(** A text in which [old] does not occur is left as it is. *)
Lemma remove_absent (s old : str) :
  PyStr.contains old s = false -> PyStr.remove s old = s.
Proof.
  unfold PyStr.contains. rewrite find_from_zero. intros Hnone.
  apply negb_false_iff, Z.eqb_eq in Hnone.
  unfold PyStr.remove. destruct old as [|b old]; [reflexivity|].
  assert (Hall : forall pos,
             PyStr.find_at (b :: old) s pos = -1 ->
             PyStr.remove_aux (b :: old) s 0 = s);
    [|exact (Hall _ Hnone)].
  clear Hnone.
  induction s as [|c s IH]; intros pos Hnone; [reflexivity|].
  cbn [PyStr.find_at] in Hnone. cbn [PyStr.remove_aux].
  destruct (PyStr.startswith (c :: s) (b :: old)); [lia|].
  f_equal. apply (IH (S pos)). exact Hnone.
Qed.

(** X7.  A text that needs no cleaning comes back unchanged: when the raw
    text is not empty, is trimmed, does not hold the original message, starts
    with none of the role labels and has at most 500 characters,
    [_clean_response] returns it as it is. *)
Theorem clean_response_keeps_clean_text (raw original_message : str) :
  raw <> [] ->
  PyStr.strip raw = raw ->
  PyStr.contains original_message raw = false ->
  Forall (fun prefix => PyStr.startswith raw prefix = false) prefixes_to_remove ->
  PyStr.len raw <= 500 ->
  _clean_response raw original_message = raw.
Proof.
  intros Hraw Htrim Habsent Hprefixes Hshort.
  unfold _clean_response. destruct raw as [|c raw]; [congruence|].
  cbn [PyStr.truthy negb]. rewrite remove_absent by exact Habsent. rewrite Htrim.
  assert (Hfold : fold_left remove_prefix prefixes_to_remove (c :: raw)
                  = (c :: raw)).
  { induction Hprefixes as [|prefix prefixes Hprefix _ IH]; [reflexivity|].
    cbn [fold_left]. unfold remove_prefix at 2. rewrite Hprefix. exact IH. }
  rewrite Hfold. cbn [PyStr.truthy negb].
  destruct (500 <? PyStr.len (c :: raw)) eqn:Hlong; [|reflexivity].
  apply Z.ltb_lt in Hlong. lia.
Qed.

Lemma clean_response_keeps_clean_text_witness :
  _clean_response (py "We open at 9.") (py "When do you open?") = py "We open at 9.".
Proof.
  apply clean_response_keeps_clean_text.
  - discriminate.
  - vm_compute. reflexivity.
  - vm_compute. reflexivity.
  - repeat constructor.
  - vm_compute. discriminate.
Defined.

(** ** The orchestrator, further *)

Lemma truthy_nonempty (s : str) : PyStr.truthy s = true -> s <> [].
Proof. destruct s; [discriminate|discriminate]. Qed.

Lemma redirect_truthy (cfg : BusinessConfig) (phrase : str) :
  PyStr.truthy (redirect cfg phrase) = true.
Proof. reflexivity. Qed.

Section ChatFurther.

Variable lowercase : str -> str.
Variable settings : Settings.

Lemma on_generation_path_config (s1 s2 : AIService) (message : str) :
  business_config s1 = business_config s2 ->
  on_generation_path lowercase settings s1 message = on_generation_path lowercase settings s2 message.
Proof.
  intros Hcfg. unfold on_generation_path.
  rewrite (is_on_topic_config lowercase s1 s2) by exact Hcfg. reflexivity.
Qed.

(** What [chat] returns when the message does not reach the generator. *)
Lemma chat_answered_early (env : Env) (message : str) (cid : option str)
    (history : option (list ChatMessage)) (context : option str)
    (self : AIService) :
  on_generation_path lowercase settings self message = false ->
  exists text label tokens,
    chat lowercase settings env message cid history context self
    = (Ok {| response := Some text;
             conversation_id := resolve_conversation_id env cid;
             model_used := label;
             tokens_used := tokens |}, self)
    /\ PyStr.truthy text = true
    /\ 0 <= tokens
    /\ (label = py "business_rules" \/ label = py "business_knowledge")
    /\ (_is_on_topic lowercase self message = (false, Some text)
        \/ _get_direct_answer lowercase settings message = Some text).
Proof.
  unfold on_generation_path. intros Hpath.
  destruct (is_on_topic_loop_cases lowercase (business_config self) (PyStr.lower lowercase message)
              (restricted_topics (business_config self)))
    as [(_ & Hloop)|(phrase & _ & _ & Hloop)].
  - fold (_is_on_topic lowercase self message) in Hloop. rewrite Hloop in Hpath.
    cbn [fst andb] in Hpath.
    destruct (_get_direct_answer lowercase settings message) as [[|c answer]|] eqn:Hanswer;
      try discriminate.
    exists (c :: answer), (py "business_knowledge"), (word_count (c :: answer)).
    split; [|split; [reflexivity|split; [unfold word_count; lia|split; eauto]]].
    apply chat_direct; [rewrite Hloop; reflexivity|exact Hanswer|reflexivity].
  - fold (_is_on_topic lowercase self message) in Hloop.
    exists (redirect (business_config self) phrase), (py "business_rules"), 0.
    split; [apply chat_rejected; exact Hloop|].
    split; [apply redirect_truthy|]. split; [lia|]. split; eauto.
Qed.

End ChatFurther.

(** X8.  Every call of [chat] returns a result, and the result is well
    formed: its [response] is a string that is not empty, its [tokens_used]
    is not negative, and its [model_used] is "business_rules",
    "business_knowledge" or the name of the model. *)
Theorem chat_result_is_well_formed (lowercase : str -> str) (settings : Settings) (env : Env)
    (message : str) (cid : option str)
    (history : option (list ChatMessage)) (context : option str)
    (self : AIService) :
  exists r self' text,
    chat lowercase settings env message cid history context self = (Ok r, self')
    /\ response r = Some text
    /\ text <> []
    /\ 0 <= tokens_used r
    /\ (model_used r = py "business_rules"
        \/ model_used r = py "business_knowledge"
        \/ model_used r = model_name self).
Proof.
  destruct (on_generation_path lowercase settings self message) eqn:Hpath.
  - do 3 eexists. split; [apply (chat_generated lowercase settings); exact Hpath|].
    cbn [response tokens_used model_used].
    split; [reflexivity|]. split; [apply truthy_nonempty, clean_response_truthy|].
    split; [unfold word_count; lia|]. right. right. reflexivity.
  - destruct (chat_answered_early lowercase settings env message cid history context self Hpath)
      as (text & label & tokens & Hrun & Htext & Htokens & Hlabel & _).
    do 3 eexists. split; [exact Hrun|]. cbn [response tokens_used model_used].
    split; [reflexivity|]. split; [apply truthy_nonempty, Htext|].
    split; [exact Htokens|]. destruct Hlabel; auto.
Qed.

(** X9.  The stored conversations never shape a reply: two services with
    the same configuration and model name give the same result for the same
    request, whatever their memories hold.  The history that counts is the
    one sent with the request. *)
Theorem reply_ignores_stored_memory (lowercase : str -> str) (settings : Settings) (env : Env)
    (message : str) (cid : option str)
    (history : option (list ChatMessage)) (context : option str)
    (s1 s2 : AIService) :
  business_config s1 = business_config s2 ->
  model_name s1 = model_name s2 ->
  fst (chat lowercase settings env message cid history context s1)
  = fst (chat lowercase settings env message cid history context s2).
Proof.
  intros Hcfg Hname.
  pose proof (on_generation_path_config lowercase settings s1 s2 message Hcfg) as Hsame.
  destruct (on_generation_path lowercase settings s1 message) eqn:Hpath.
  - rewrite !(chat_generated lowercase settings) by congruence.
    unfold reply_text, _create_business_prompt. rewrite Hcfg, Hname. reflexivity.
  - unfold on_generation_path in Hpath.
    destruct (_is_on_topic lowercase s1 message) as [ok redirect_message] eqn:Hgate.
    pose proof Hgate as Hgate2.
    rewrite (is_on_topic_config lowercase s1 s2 message Hcfg) in Hgate2.
    destruct ok.
    + cbn [fst andb] in Hpath.
      destruct (_get_direct_answer lowercase settings message) as [[|c answer]|] eqn:Hanswer;
        try discriminate.
      rewrite !(chat_direct lowercase settings _ _ _ _ _ _ (c :: answer));
        try reflexivity; try exact Hanswer.
      * rewrite Hgate2. reflexivity.
      * rewrite Hgate. reflexivity.
    + rewrite (chat_rejected lowercase settings _ _ _ _ _ s1 redirect_message) by exact Hgate.
      rewrite (chat_rejected lowercase settings _ _ _ _ _ s2 redirect_message) by exact Hgate2.
      reflexivity.
Qed.

Lemma reply_ignores_stored_memory_witness :
  let fresh := AIService_init default_settings in
  let used :=
    run lowercase_sample default_settings
      [OpChat (answering_env (py "Noted.")) (py "My name is Ada") (Some (py "c1")) None None]
      fresh in
  fst (chat lowercase_sample default_settings (answering_env (py "I cannot tell.")) (py "Who am I") (Some (py "c1"))
         None None fresh)
  = fst (chat lowercase_sample default_settings (answering_env (py "I cannot tell.")) (py "Who am I") (Some (py "c1"))
           None None used).
Proof.
  cbv zeta. apply reply_ignores_stored_memory.
  - symmetry. apply step_config.
  - vm_compute. reflexivity.
Defined.

(** X10.  A call of [chat] touches at most the conversation it resolved:
    the configuration and the model name of the service stay as they were,
    and so does the stored history of every other conversation. *)
Theorem chat_touches_one_conversation (lowercase : str -> str) (settings : Settings) (env : Env)
    (message : str) (cid : option str)
    (history : option (list ChatMessage)) (context : option str)
    (self : AIService) :
  let self' := snd (chat lowercase settings env message cid history context self) in
  business_config self' = business_config self
  /\ model_name self' = model_name self
  /\ forall other,
       other <> resolve_conversation_id env cid ->
       conversation_memory self' !! other = conversation_memory self !! other.
Proof.
  cbv zeta. destruct (on_generation_path lowercase settings self message) eqn:Hpath.
  - rewrite (chat_generated lowercase settings) by exact Hpath. cbn [snd].
    unfold remember. cbn [business_config model_name conversation_memory].
    repeat split. intros other Hother.
    rewrite lookup_insert_ne by congruence. reflexivity.
  - rewrite chat_elsewhere by exact Hpath. repeat split.
Qed.

Lemma lastn_lastn {A} (m n : nat) (l : list A) :
  (m <= n)%nat -> lastn m (lastn n l) = lastn m l.
Proof.
  intros Hmn. unfold lastn. rewrite length_drop, drop_drop. f_equal. lia.
Qed.

(** X11.  When a call reaches the generator, what is stored is what is
    returned: the history of the resolved conversation then ends with the
    message of the request as a user turn followed by the returned response
    as an assistant turn; it is the earlier history with these two turns
    appended, cut to its last ten, and so holds at most ten turns whatever
    the memory held before. *)
Theorem generated_exchange_is_stored (lowercase : str -> str) (settings : Settings) (env : Env)
    (message : str) (cid : option str)
    (history : option (list ChatMessage)) (context : option str)
    (self : AIService) :
  _is_on_topic lowercase self message = (true, None) ->
  _get_direct_answer lowercase settings message = None ->
  exists r self' text,
    chat lowercase settings env message cid history context self = (Ok r, self')
    /\ response r = Some text
    /\ get_conversation_history self' (conversation_id r)
       = lastn 10 (get_conversation_history self (conversation_id r)
                     ++ [user_turn message; assistant_turn text])
    /\ lastn 2 (get_conversation_history self' (conversation_id r))
       = [user_turn message; assistant_turn text]
    /\ (length (get_conversation_history self' (conversation_id r)) <= 10)%nat.
Proof.
  intros Hgate Hnone.
  assert (Hpath : on_generation_path lowercase settings self message = true)
    by (unfold on_generation_path; rewrite Hgate, Hnone; reflexivity).
  do 3 eexists. split; [apply (chat_generated lowercase settings); exact Hpath|].
  cbn [response conversation_id]. split; [reflexivity|].
  assert (Hstored :
            get_conversation_history
              (remember self (resolve_conversation_id env cid)
                 [user_turn message;
                  assistant_turn (reply_text settings self env message history context)])
              (resolve_conversation_id env cid)
            = lastn 10 (get_conversation_history self (resolve_conversation_id env cid)
                          ++ [user_turn message;
                              assistant_turn
                                (reply_text settings self env message history context)])).
  { unfold remember, get_conversation_history at 1. cbn [conversation_memory].
    rewrite lookup_insert_eq. cbn [default]. apply truncate_is_lastn. }
  rewrite Hstored. split; [reflexivity|]. split; [|apply lastn_length].
  rewrite lastn_lastn by lia.
  apply (lastn_app_exact _ [user_turn message; assistant_turn _]).
Qed.

Lemma generated_exchange_is_stored_witness :
  exists r self' text,
    chat lowercase_sample default_settings (answering_env (py "Noted.")) (py "Hello there") None None None
      (AIService_init default_settings) = (Ok r, self')
    /\ response r = Some text
    /\ get_conversation_history self' (conversation_id r)
       = lastn 10 (get_conversation_history (AIService_init default_settings)
                     (conversation_id r)
                     ++ [user_turn (py "Hello there"); assistant_turn text])
    /\ lastn 2 (get_conversation_history self' (conversation_id r))
       = [user_turn (py "Hello there"); assistant_turn text]
    /\ (length (get_conversation_history self' (conversation_id r)) <= 10)%nat.
Proof.
  apply generated_exchange_is_stored; vm_compute; reflexivity.
Defined.

(** X12.  A message that the topic gate or the fact extractor answers is
    answered without the model: whatever the pipeline would do, the result
    and the state after the call are the same. *)
Theorem early_answers_ignore_the_pipeline (lowercase : str -> str) (settings : Settings) (env1 env2 : Env)
    (message : str) (cid : option str)
    (history : option (list ChatMessage)) (context : option str)
    (self : AIService) :
  on_generation_path lowercase settings self message = false ->
  uuid4 env1 = uuid4 env2 ->
  chat lowercase settings env1 message cid history context self
  = chat lowercase settings env2 message cid history context self.
Proof.
  intros Hpath Huuid.
  unfold on_generation_path in Hpath.
  destruct (_is_on_topic lowercase self message) as [ok redirect_message] eqn:Hgate.
  assert (Hid : resolve_conversation_id env1 cid = resolve_conversation_id env2 cid)
    by (unfold resolve_conversation_id; rewrite Huuid; reflexivity).
  destruct ok.
  - cbn [fst andb] in Hpath.
    destruct (_get_direct_answer lowercase settings message) as [[|c answer]|] eqn:Hanswer;
      try discriminate.
    rewrite !(chat_direct lowercase settings _ _ _ _ _ _ (c :: answer));
      try reflexivity; try exact Hanswer; try (rewrite Hgate; reflexivity).
    rewrite Hid. reflexivity.
  - rewrite !(chat_rejected lowercase settings _ _ _ _ _ _ redirect_message) by exact Hgate.
    rewrite Hid. reflexivity.
Qed.

Lemma early_answers_ignore_the_pipeline_witness :
  let settings := settings_with_details (py "Hours: 9am-6pm Mon-Fri.") in
  chat lowercase_sample settings failing_env (py "What are your business hours?") (Some (py "c1")) None None
    (AIService_init settings)
  = chat lowercase_sample settings (answering_env (py "We never close.")) (py "What are your business hours?")
      (Some (py "c1")) None None (AIService_init settings).
Proof.
  cbv zeta. apply early_answers_ignore_the_pipeline.
  - vm_compute. reflexivity.
  - reflexivity.
Defined.

(** ** The fact extractor, further *)

(** X13.  When the lower-cased business details hold none of the anchors
    "hours:", "location:", "phone", "email", "pricing:", "shipping:",
    "return" and "services:", the fact extractor has no answer for any
    message. *)
Theorem details_without_anchors_answer_nothing (lowercase : str -> str) (settings : Settings)
    (message : str) :
  let business_details := PyStr.lower lowercase (BUSINESS_DETAILS settings) in
  PyStr.contains (py "hours:") business_details = false ->
  PyStr.contains (py "location:") business_details = false ->
  PyStr.contains (py "phone") business_details = false ->
  PyStr.contains (py "email") business_details = false ->
  PyStr.contains (py "pricing:") business_details = false ->
  PyStr.contains (py "shipping:") business_details = false ->
  PyStr.contains (py "return") business_details = false ->
  PyStr.contains (py "services:") business_details = false ->
  _get_direct_answer lowercase settings message = None.
Proof.
  intros business_details Hhours Hlocation Hphone Hemail Hpricing Hshipping
    Hreturn Hservices.
  unfold _get_direct_answer. apply direct_answer_loop_none.
  fold business_details.
  repeat constructor; unfold answerable, anchor_present; cbn [fst snd];
    simpl (PyStr.eqb _ _); cbv iota;
    rewrite ?Hhours, ?Hlocation, ?Hphone, ?Hemail, ?Hpricing, ?Hshipping,
      ?Hreturn, ?Hservices;
    apply andb_false_r.
Qed.

Lemma details_without_anchors_answer_nothing_witness :
  _get_direct_answer lowercase_sample default_settings (py "What are your business hours?") = None.
Proof.
  apply details_without_anchors_answer_nothing; vm_compute; reflexivity.
Defined.

(** ** Clearing, further *)

(** After [clear_conversation] the conversation is gone and the
    configuration is the one before. *)
Lemma clear_conversation_forgets (id : str) (self : AIService) :
  conversation_memory (snd (clear_conversation id self)) !! id = None
  /\ business_config (snd (clear_conversation id self)) = business_config self.
Proof.
  unfold clear_conversation, bind, get_self, set_memory, ret.
  destruct (conversation_memory self !! id) eqn:Hid;
    cbn [fst snd conversation_memory business_config].
  - rewrite lookup_delete_eq. split; reflexivity.
  - split; [exact Hid|reflexivity].
Qed.

(** X14.  [clear_conversation] returns normally and touches one conversation
    only: the conversation it names is gone from the memory, every other
    conversation, the configuration and the model name stay as they were,
    and clearing a second time changes nothing more. *)
Theorem clear_touches_one_conversation (id : str) (self : AIService) :
  let self' := snd (clear_conversation id self) in
  fst (clear_conversation id self) = Ok tt
  /\ conversation_memory self' !! id = None
  /\ (forall other, other <> id ->
        conversation_memory self' !! other = conversation_memory self !! other)
  /\ business_config self' = business_config self
  /\ model_name self' = model_name self
  /\ clear_conversation id self' = (Ok tt, self').
Proof.
  cbv zeta. unfold clear_conversation, bind, get_self, set_memory, ret.
  destruct (conversation_memory self !! id) eqn:Hid;
    cbn [fst snd conversation_memory business_config model_name].
  - rewrite lookup_delete_eq. repeat split.
    intros other Hother. apply lookup_delete_ne. congruence.
  - rewrite Hid. repeat split.
Qed.

(** X15.  After [clear_conversation], the next exchange that reaches the
    generator starts the conversation afresh: its history is the user turn
    and the assistant turn of that exchange and nothing else. *)
Theorem exchange_after_clear_starts_afresh (lowercase : str -> str) (settings : Settings) (env : Env)
    (message : str) (cid : option str)
    (history : option (list ChatMessage)) (context : option str)
    (self : AIService) :
  _is_on_topic lowercase self message = (true, None) ->
  _get_direct_answer lowercase settings message = None ->
  let id := resolve_conversation_id env cid in
  let cleared := snd (clear_conversation id self) in
  exists r self' text,
    chat lowercase settings env message cid history context cleared = (Ok r, self')
    /\ response r = Some text
    /\ conversation_id r = id
    /\ get_conversation_history self' id
       = [user_turn message; assistant_turn text].
Proof.
  intros Hgate Hnone id cleared.
  destruct (clear_conversation_forgets id self) as (Hgone & Hcfg).
  fold cleared in Hgone, Hcfg.
  assert (Hpath : on_generation_path lowercase settings cleared message = true).
  { unfold on_generation_path.
    rewrite (is_on_topic_config lowercase cleared self) by exact Hcfg.
    rewrite Hgate, Hnone. reflexivity. }
  do 3 eexists. split; [apply (chat_generated lowercase settings); exact Hpath|].
  cbn [response conversation_id]. split; [reflexivity|]. split; [reflexivity|].
  fold id. unfold remember, get_conversation_history. cbn [conversation_memory].
  rewrite lookup_insert_eq, Hgone. reflexivity.
Qed.

Lemma exchange_after_clear_starts_afresh_witness :
  let used :=
    run lowercase_sample default_settings
      [OpChat (answering_env (py "Noted.")) (py "My name is Ada") (Some (py "c1")) None None]
      (AIService_init default_settings) in
  let cleared := snd (clear_conversation (py "c1") used) in
  exists r self' text,
    chat lowercase_sample default_settings (answering_env (py "Hi!")) (py "Hello there") (Some (py "c1")) None None
      cleared = (Ok r, self')
    /\ response r = Some text
    /\ conversation_id r = py "c1"
    /\ get_conversation_history self' (py "c1")
       = [user_turn (py "Hello there"); assistant_turn text].
Proof.
  cbv zeta.
  apply (exchange_after_clear_starts_afresh lowercase_sample default_settings (answering_env (py "Hi!"))
           (py "Hello there") (Some (py "c1")) None None); vm_compute; reflexivity.
Defined.

(** ** Loading the model, further *)

(** X16.  [initialize] keeps the configured model when its pipeline loads.
    When it does not, the service takes the name "microsoft/DialoGPT-small"
    and loads that model on the CPU (device -1), whatever device was
    configured; [initialize] raises exactly when this second load fails too,
    and the service has then already taken the fallback name.  The memory
    and the configuration are never touched, and after a fallback a
    generated reply is reported under the fallback name. *)
Theorem initialize_falls_back_once (lowercase : str -> str) (settings : Settings)
    (load : str -> Z -> bool) (device : Z) (self : AIService) :
  let self' := snd (initialize load device self) in
  conversation_memory self' = conversation_memory self
  /\ business_config self' = business_config self
  /\ (load (model_name self) device = true ->
      initialize load device self = (Ok tt, self))
  /\ (load (model_name self) device = false ->
      model_name self' = fallback_model_name
      /\ fst (initialize load device self)
         = (if load fallback_model_name (-1) then Ok tt else Raise PipelineError)
      /\ forall env message cid history context r self'',
           on_generation_path lowercase settings self message = true ->
           chat lowercase settings env message cid history context self' = (Ok r, self'') ->
           model_used r = fallback_model_name).
Proof.
  cbv zeta.
  unfold initialize, try_except, bind, get_self, load_pipeline, set_model_name,
    ret, raise.
  destruct (load (model_name self) device) eqn:Hfirst;
    cbn [fst snd model_name conversation_memory business_config].
  - repeat split; discriminate.
  - destruct (load fallback_model_name (-1)) eqn:Hsecond;
      cbn [fst snd model_name conversation_memory business_config];
      (repeat split; try discriminate);
      intros env message cid history context r self'' Hpath Hrun;
      rewrite (chat_generated lowercase settings) in Hrun
        by (rewrite <- Hpath; apply on_generation_path_config; reflexivity);
      injection Hrun as <- _; reflexivity.
Qed.

Lemma initialize_falls_back_once_witness :
  let load := fun (model : str) (device : Z) =>
                PyStr.eqb model (py "microsoft/DialoGPT-small") && (device =? -1) in
  let self' := snd (initialize load 0 (AIService_init default_settings)) in
  model_name self' = py "microsoft/DialoGPT-small"
  /\ fst (initialize load 0 (AIService_init default_settings)) = Ok tt.
Proof.
  cbv zeta.
  destruct (initialize_falls_back_once lowercase_sample default_settings
              (fun (model : str) (device : Z) =>
                 PyStr.eqb model (py "microsoft/DialoGPT-small") && (device =? -1))
              0 (AIService_init default_settings)) as (_ & _ & _ & Hfallback).
  destruct (Hfallback eq_refl) as (Hname & Hout & _).
  split; [exact Hname|exact Hout].
Defined.

(** ** The chat endpoint, further *)



Example post_chat_sample :
  let service := AIService_init default_settings in
  let body message :=
    {| body_message := message; body_conversation_id := Some (py "c1");
       body_context := None; body_conversation_history := Some [] |} in
  post_chat lowercase_sample default_settings failing_env (body None) service
  = (HttpError 422, service)
  /\ post_chat lowercase_sample default_settings failing_env (body (Some [])) service
     = (HttpError 422, service)
  /\ post_chat lowercase_sample default_settings failing_env
       (body (Some (repeat 97%N 1001))) service
     = (HttpError 422, service)
  /\ post_chat lowercase_sample default_settings failing_env
       (body (Some (py "I need medical advice"))) service
     = (Http200
          {| response_text :=
               py "I can't provide medical advice. Let me help you with customer service related questions instead.";
             response_conversation_id := py "c1";
             response_model_used := py "business_rules";
             response_tokens_used := Some 0 |}, service).
Proof. vm_compute. repeat split; reflexivity. Qed.

(** X18.  A message that holds no keyword of any topic gets no answer from
    the fact extractor, whatever the business details say. *)
Theorem message_without_keyword_answers_nothing (lowercase : str -> str) (settings : Settings)
    (message : str) :
  Forall (fun item => any_keyword (PyStr.lower lowercase message) (snd item) = false) patterns ->
  _get_direct_answer lowercase settings message = None.
Proof.
  intros Hnone. unfold _get_direct_answer. apply direct_answer_loop_none.
  eapply Forall_impl; [exact Hnone|].
  intros item Hitem. unfold answerable. rewrite Hitem. reflexivity.
Qed.

Lemma message_without_keyword_answers_nothing_witness :
  _get_direct_answer lowercase_sample
    (settings_with_details (py "Hours: 9am-6pm Mon-Fri. Phone 555-1234."))
    (py "Do you sell gift cards?") = None.
Proof.
  apply message_without_keyword_answers_nothing.
  repeat constructor.
Defined.
